(** * Campus energy dashboard: a shallow embedding of [energy_dashboard.py]

    The development follows the layout of the Python module:
    the object model ([MeterReading], [Building], [BuildingManager]),
    ingestion ([ingest_data]), the four aggregate views, and the
    construction of the object model done by [main].

    Modelling conventions.
    - A pandas [Timestamp] is its count of nanoseconds since the epoch, a [Z];
      a [date] is a count of days since the epoch.
    - A [kwh] value is a rational ([Q]), as every finite binary float is.
      The two infinities are outside the model and [NaN] only occurs as the
      null cell of a raw table.  Comparisons are the ones of [Q], which are
      the ones the program makes.  The operations that round (sums,
      products, quotients, the reductions of pandas) are the fields of the
      class [Arithmetic]; [binary64] gives them for IEEE 754 double
      precision, and the results that do not name it hold for any
      arithmetic.
    - A [DataFrame] is a list of rows plus the derived columns that the code
      assigns in place; functions that assign to their argument return the
      updated frame next to their result.
    - Exceptions are values of [py]. *)

From Stdlib Require Import List ZArith QArith Qfield Qround Qabs Qreduction Bool String Ascii.
From Stdlib Require Import Lia Permutation Sorted.
From Stdlib Require Import Setoid Morphisms OrderedTypeEx.
Import ListNotations.

Open Scope Z_scope.
Open Scope Q_scope.
Open Scope string_scope.
Open Scope list_scope.

(* ------------------------------------------------------------------ *)
(** ** Python results *)

Inductive exn : Type :=
| ValueError
| ZeroDivisionError.

Inductive py (A : Type) : Type :=
| Ret (a : A)
| Raise (e : exn).
Arguments Ret {A} a.
Arguments Raise {A} e.

(* ------------------------------------------------------------------ *)
(** ** Numbers *)

(** The operations of the run-time on numbers.  [py_add], [py_mul] and
    [py_quot] are Python's [+], [*] and [/] (by a divisor that is not
    zero).  [group_sum] and [group_mean] are the sum and the mean pandas
    takes of the values of a non-empty group, or of a non-empty bin of a
    resampling: how pandas adds the values up is its own business, and the
    code relies on the result only. *)
Class Arithmetic : Type := {
  py_add : Q -> Q -> Q;
  py_mul : Q -> Q -> Q;
  py_quot : Q -> Q -> Q;
  group_sum : list Q -> Q;
  group_mean : list Q -> Q
}.

(** [sum(iterable)]: the items are added one by one from the left,
    starting at [0]. *)
Definition py_sum {arith : Arithmetic} (l : list Q) : Q := fold_left py_add l 0.

(** [x / n] for a number and a length. *)
Definition py_div {arith : Arithmetic} (x : Q) (n : nat) : py Q :=
  match n with
  | O => Raise ZeroDivisionError
  | S _ => Ret (py_quot x (inject_Z (Z.of_nat n)))
  end.

Definition Qltb (x y : Q) : bool := negb (Qle_bool y x).

(** [max(iterable, key=...)]: the running maximum is replaced only by an
    item whose key is strictly greater. *)
Fixpoint max_loop {A : Type} (key : A -> Q) (best : A) (l : list A) : A :=
  match l with
  | [] => best
  | x :: l' => if Qltb (key best) (key x) then max_loop key x l' else max_loop key best l'
  end.

Definition py_max {A : Type} (key : A -> Q) (l : list A) : py A :=
  match l with
  | [] => Raise ValueError
  | x :: l' => Ret (max_loop key x l')
  end.

(* ------------------------------------------------------------------ *)
(** ** Object model (TASK 3) *)

Record MeterReading : Type := mkMeterReading {
  mr_timestamp : Z;
  mr_kwh : Q
}.

Record Building : Type := mkBuilding {
  name : string;
  meter_readings : list MeterReading
}.

(** [Building(name)] *)
Definition Building_init (n : string) : Building := mkBuilding n [].

Definition add_reading (b : Building) (timestamp : Z) (kwh : Q) : Building :=
  mkBuilding (name b) (meter_readings b ++ [mkMeterReading timestamp kwh]).

Definition calculate_total_consumption {arith : Arithmetic} (b : Building) : Q :=
  py_sum (map mr_kwh (meter_readings b)).

Definition calculate_average_consumption {arith : Arithmetic} (b : Building) : py Q :=
  match meter_readings b with
  | [] => Ret 0
  | _ :: _ => py_div (calculate_total_consumption b) (List.length (meter_readings b))
  end.

Definition get_peak_consumption (b : Building) : py (option MeterReading) :=
  match meter_readings b with
  | [] => Ret None
  | _ :: _ =>
      match py_max mr_kwh (meter_readings b) with
      | Ret r => Ret (Some r)
      | Raise e => Raise e
      end
  end.

(** [BuildingManager.buildings]: a dict keyed by name, in insertion order;
    assigning to a key that is present replaces the value in place. *)
Definition BuildingManager : Type := list (string * Building).

Fixpoint dict_set (d : BuildingManager) (k : string) (v : Building) : BuildingManager :=
  match d with
  | [] => [(k, v)]
  | (k', v') :: d' => if String.eqb k' k then (k, v) :: d' else (k', v') :: dict_set d' k v
  end.

Definition add_building (m : BuildingManager) (b : Building) : BuildingManager :=
  dict_set m (name b) b.

Fixpoint get_building (m : BuildingManager) (n : string) : option Building :=
  match m with
  | [] => None
  | (k, v) :: m' => if String.eqb k n then Some v else get_building m' n
  end.

Definition get_all_buildings (m : BuildingManager) : list Building := map snd m.

(* ------------------------------------------------------------------ *)
(** ** Raw tables and the pandas interface (TASK 1) *)

(** A cell of the frame [pd.read_csv] returns: missing ([NaN]), a number
    (a column that parsed as numeric), or text (an [object] column). *)
Inductive cell : Type :=
| CNull
| CNum (x : Q)
| CStr (s : string).

(** What [pd.read_csv(file_path, on_bad_lines='skip')] does on a file:
    it raises, or it returns a frame with named columns.  A data row is the
    list of its cells in column order; cells missing at the end are null. *)
Inductive read_result : Type :=
| ReadFails
| Table (columns : list string) (data : list (list cell)).

(** A file of the data directory: its name ([file_path.name]) and what
    [pd.read_csv] makes of it. *)
Record CsvFile : Type := mkCsvFile {
  file_name : string;
  read_csv : read_result
}.

(** [str.rfind('.')] *)
Fixpoint rfind_dot (cs : list ascii) : option nat :=
  match cs with
  | [] => None
  | c :: cs' =>
      match rfind_dot cs' with
      | Some i => Some (S i)
      | None => if Ascii.eqb c "." then Some O else None
      end
  end.

(** [PurePath.stem]: the name without its last suffix; a dot that opens or
    closes the name starts no suffix. *)
Definition path_stem (name : string) : string :=
  let cs := list_ascii_of_string name in
  match rfind_dot cs with
  | Some i =>
      if (Nat.ltb 0 i && Nat.ltb i (List.length cs - 1))%bool
      then string_of_list_ascii (firstn i cs)
      else name
  | None => name
  end.

Definition stem (f : CsvFile) : string := path_stem (file_name f).

(** A row of the canonical dataset. *)
Record Row : Type := mkRow {
  timestamp : Z;
  kwh : Q;
  building : string
}.

Definition timestamp_le (a b : Row) : Prop := (timestamp a <= timestamp b)%Z.

(** The pandas functions whose result the code relies on but does not
    determine: the two parsers, and [sort_values('timestamp')].

    [pd.to_datetime(column, errors='coerce')] is applied to a whole column:
    how one value is read depends on the other values (the format is
    inferred from the column), and the call itself can raise, which is
    [None] here.  When it returns it gives, for every value of the column,
    a timestamp or [NaT].

    The sort is called with the default [kind], for which pandas promises
    an ascending order of the same rows and nothing about rows with equal
    keys. *)
Class Pandas : Type := {
  to_datetime : list cell -> option (list (option Z));
  to_datetime_length :
    forall column ts, to_datetime column = Some ts -> List.length ts = List.length column;
  numeric_of_string : string -> option Q;
  sort_values : list Row -> list Row;
  sort_values_perm : forall l, Permutation l (sort_values l);
  sort_values_sorted : forall l, StronglySorted timestamp_le (sort_values l)
}.

(** The canonical frame: its rows and the derived integer columns that
    were assigned to it, by name, in assignment order. *)
Record DataFrame : Type := mkDataFrame {
  rows : list Row;
  derived : list (string * list Z)
}.

Definition columns (df : DataFrame) : list string :=
  ["timestamp"; "kwh"; "building"] ++ map fst (derived df).

(** [df[name] = values] on the derived columns. *)
Fixpoint assign (name : string) (values : list Z) (cols : list (string * list Z))
  : list (string * list Z) :=
  match cols with
  | [] => [(name, values)]
  | (n, v) :: cols' =>
      if String.eqb n name then (name, values) :: cols'
      else (n, v) :: assign name values cols'
  end.

Definition set_column (name : string) (values : list Z) (df : DataFrame) : DataFrame :=
  mkDataFrame (rows df) (assign name values (derived df)).

Fixpoint column_index (name : string) (cols : list string) : option nat :=
  match cols with
  | [] => None
  | c :: cols' =>
      if String.eqb c name then Some O
      else option_map S (column_index name cols')
  end.

Definition get_cell (cols : list string) (name : string) (r : list cell) : cell :=
  match column_index name cols with
  | Some i => nth i r CNull
  | None => CNull
  end.

Definition has_column (name : string) (cols : list string) : bool :=
  existsb (String.eqb name) cols.

Definition isnull (c : cell) : bool :=
  match c with CNull => true | _ => false end.

Definition notna {A : Type} (o : option A) : bool :=
  match o with Some _ => true | None => false end.

Section Ingestion.
Context {pandas : Pandas}.

(** [pd.to_numeric(series, errors='coerce')] on one cell. *)
Definition to_numeric (c : cell) : option Q :=
  match c with
  | CNull => None
  | CNum x => Some x
  | CStr s => numeric_of_string s
  end.

(** Lines 194-204 of [ingest_data], on a frame that has both columns.
    [None]: the conversion of the timestamp column raised. *)
Definition clean (building_name : string) (cols : list string)
           (data : list (list cell)) : option (list Row) :=
  (* df['building'] = building_name
     df['timestamp'] = pd.to_datetime(df['timestamp'], errors='coerce') *)
  match to_datetime (map (get_cell cols "timestamp") data) with
  | None => None
  | Some ts =>
      let df1 := combine ts (map (get_cell cols "kwh") data) in
      (* df = df.dropna(subset=['timestamp', 'kwh']) *)
      let df2 := filter (fun tk => notna (fst tk) && negb (isnull (snd tk))) df1 in
      (* df['kwh'] = pd.to_numeric(df['kwh'], errors='coerce') *)
      let df3 := map (fun tk => (fst tk, to_numeric (snd tk))) df2 in
      (* df = df.dropna(subset=['kwh']) *)
      let df4 := filter (fun tk => notna (snd tk)) df3 in
      Some (flat_map (fun tk => match tk with
                                | (Some t, Some k) => [mkRow t k building_name]
                                | _ => []
                                end) df4)
  end.

(** One iteration of the loop over [csv_files]; the state is
    [(combined_data, failed_files)]. *)
Definition ingest_step (st : list (list Row) * list string) (file_path : CsvFile)
  : list (list Row) * list string :=
  let (combined_data, failed_files) := st in
  match read_csv file_path with
  | ReadFails =>
      (* except FileNotFoundError / except Exception *)
      (combined_data, failed_files ++ [file_name file_path])
  | Table cols data =>
      if negb (has_column "timestamp" cols) || negb (has_column "kwh" cols)
      then (combined_data, failed_files ++ [file_name file_path])
      else
        match clean (stem file_path) cols data with
        | Some df => (combined_data ++ [df], failed_files)
        | None =>
            (* except Exception *)
            (combined_data, failed_files ++ [file_name file_path])
        end
  end.

(** [ingest_data], from the point where [csv_files] is bound. *)
Definition ingest_data (csv_files : list CsvFile) : option DataFrame * list string :=
  let (combined_data, failed_files) := fold_left ingest_step csv_files ([], []) in
  match combined_data with
  | [] => (None, failed_files)
  | _ :: _ =>
      let df_combined := List.concat combined_data in
      let df_combined := sort_values df_combined in
      (Some (mkDataFrame df_combined []), failed_files)
  end.
End Ingestion.

(* ------------------------------------------------------------------ *)
(** ** pandas reductions and grouping (TASK 2) *)

(** [sum], [mean], [max], [min] of the values of a group, none of them
    null.  The sum of no value is [0]; [None] is the [NaN] pandas gives as
    the mean, the maximum and the minimum of no value. *)
Definition pd_sum {arith : Arithmetic} (l : list Q) : Q :=
  match l with
  | [] => 0
  | _ :: _ => group_sum l
  end.

Definition pd_mean {arith : Arithmetic} (l : list Q) : option Q :=
  match l with
  | [] => None
  | _ :: _ => Some (group_mean l)
  end.

Definition pd_max (l : list Q) : option Q :=
  match l with
  | [] => None
  | x :: l' => Some (fold_left (fun a b => if Qltb a b then b else a) l' x)
  end.

Definition pd_min (l : list Q) : option Q :=
  match l with
  | [] => None
  | x :: l' => Some (fold_left (fun a b => if Qltb b a then b else a) l' x)
  end.

(** [Series.unique()]: the distinct values in order of first appearance. *)
Fixpoint unique {A : Type} (eqb : A -> A -> bool) (l : list A) : list A :=
  match l with
  | [] => []
  | x :: l' => x :: filter (fun y => negb (eqb x y)) (unique eqb l')
  end.

Fixpoint insert_sorted {A : Type} (leb : A -> A -> bool) (x : A) (l : list A) : list A :=
  match l with
  | [] => [x]
  | y :: l' => if leb x y then x :: y :: l' else y :: insert_sorted leb x l'
  end.

Definition sort_by {A : Type} (leb : A -> A -> bool) (l : list A) : list A :=
  fold_right (insert_sorted leb) [] l.

(** The group keys of [groupby(..., sort=True)]: distinct, ascending. *)
Definition group_keys {A : Type} (eqb leb : A -> A -> bool) (l : list A) : list A :=
  sort_by leb (unique eqb l).

(** Keys that are a pair are ordered lexicographically. *)
Definition pair_eqb {A B : Type} (eqa : A -> A -> bool) (eqb : B -> B -> bool)
           (x y : A * B) : bool :=
  eqa (fst x) (fst y) && eqb (snd x) (snd y).

Definition pair_leb {A B : Type} (eqa lea : A -> A -> bool) (leb : B -> B -> bool)
           (x y : A * B) : bool :=
  if eqa (fst x) (fst y) then leb (snd x) (snd y) else lea (fst x) (fst y).

Definition NS_PER_HOUR : Z := 3600000000000.
Definition NS_PER_DAY : Z := 86400000000000.

(** [Timestamp.date()] as days since the epoch, and [Timestamp.hour]. *)
Definition date_of (t : Z) : Z := (t / NS_PER_DAY)%Z.
Definition hour_of (t : Z) : Z := ((t / NS_PER_HOUR) mod 24)%Z.

(** The label of the ['W'] bin of a day: ['W'] is ['W-SUN'], bins are closed
    and labelled on the right, so a day belongs to the bin of the first
    Sunday not before it.  Day 0 (1970-01-01) is a Thursday. *)
Definition week_end (d : Z) : Z := (d + (6 - (d + 3) mod 7))%Z.

Definition row_week (r : Row) : Z := week_end (date_of (timestamp r)).

Definition in_building (b : string) (r : Row) : bool := String.eqb (building r) b.

(* ------------------------------------------------------------------ *)
(** ** The four aggregate views *)

Record DailyRow : Type := mkDailyRow {
  d_date : Z;
  d_building : string;
  d_total_kwh : Q
}.

Definition calculate_daily_totals {arith : Arithmetic} (df : DataFrame) : list DailyRow * DataFrame :=
  (* df['date'] = df['timestamp'].dt.date *)
  let df := set_column "date" (map (fun r => date_of (timestamp r)) (rows df)) df in
  let key r := (date_of (timestamp r), building r) in
  let keys := group_keys (pair_eqb Z.eqb String.eqb) (pair_leb Z.eqb Z.leb String.leb)
                         (map key (rows df)) in
  let daily_totals :=
    map (fun k =>
           mkDailyRow (fst k) (snd k)
             (pd_sum (map kwh (filter (fun r => pair_eqb Z.eqb String.eqb (key r) k) (rows df)))))
        keys in
  (daily_totals, df).

Record WeeklyRow : Type := mkWeeklyRow {
  w_building : string;
  w_timestamp : Z;
  w_total : Q;
  w_mean : option Q;
  w_max : option Q;
  w_min : option Q
}.

(** Whether a timestamp is the last nanosecond of a Sunday, the right
    edge of a weekly bin. *)
Definition ends_a_sunday (t : Z) : bool :=
  (Z.eqb (week_end (date_of t)) (date_of t) && Z.eqb (t mod NS_PER_DAY) (NS_PER_DAY - 1))%Z.

(** The last bin that is laid out when a row is the latest of its group.
    The bin edges run one week past the day of the latest row, and the
    spare bin at the end is trimmed only when the edge before it is
    strictly later than that row: a row on the edge itself leaves one more
    bin after its own. *)
Definition closing_week (r : Row) : Z :=
  if ends_a_sunday (timestamp r) then (row_week r + 7)%Z else row_week r.

Definition first_week (r0 : Row) (rest : list Row) : Z :=
  fold_left Z.min (map row_week rest) (row_week r0).

Definition last_week (r0 : Row) (rest : list Row) : Z :=
  fold_left Z.max (map closing_week rest) (closing_week r0).

(** [resample('W')] on the rows of one group: every weekly bin from the
    bin of the earliest row to the last bin laid out for the latest one,
    each with the rows that fall in it, empty or not.  A bin is named by
    the day number of its Sunday. *)
Definition resample_W (group : list Row) : list (Z * list Row) :=
  match group with
  | [] => []
  | r0 :: rest =>
      let first := first_week r0 rest in
      let last := last_week r0 rest in
      map (fun i =>
             let bin := (first + 7 * Z.of_nat i)%Z in
             (bin, filter (fun r => Z.eqb (row_week r) bin) group))
          (seq 0 (S (Z.to_nat ((last - first) / 7))))
  end.

Definition calculate_weekly_aggregates {arith : Arithmetic} (df : DataFrame) : list WeeklyRow * DataFrame :=
  (* df_copy = df.copy(): the argument is left as it is *)
  let df_copy := df in
  let weekly_agg :=
    flat_map (fun b =>
                map (fun bin =>
                       let v := map kwh (snd bin) in
                       mkWeeklyRow b (fst bin * NS_PER_DAY)%Z
                                   (pd_sum v) (pd_mean v) (pd_max v) (pd_min v))
                    (resample_W (filter (in_building b) (rows df_copy))))
             (group_keys String.eqb String.leb (map building (rows df_copy))) in
  (weekly_agg, df).

Record SummaryRow : Type := mkSummaryRow {
  s_building : string;
  total_kwh : Q;
  mean_kwh : option Q;
  max_kwh : option Q;
  min_kwh : option Q;
  readings_count : nat
}.

Definition building_wise_summary {arith : Arithmetic} (df : DataFrame) : list SummaryRow :=
  map (fun b =>
         let v := map kwh (filter (in_building b) (rows df)) in
         mkSummaryRow b (pd_sum v) (pd_mean v) (pd_max v) (pd_min v) (List.length v))
      (group_keys String.eqb String.leb (map building (rows df))).

Record PeakRow : Type := mkPeakRow {
  p_building : string;
  p_hour : Z;
  p_kwh : option Q
}.

(** [idxmax] of a labelled column: the label of the first value that no
    other value exceeds; null values are skipped. *)
Fixpoint idxmax_loop (best : nat * Q) (l : list (nat * option Q)) : nat :=
  match l with
  | [] => fst best
  | (_, None) :: l' => idxmax_loop best l'
  | (i, Some v) :: l' =>
      if Qltb (snd best) v then idxmax_loop (i, v) l' else idxmax_loop best l'
  end.

Fixpoint idxmax (l : list (nat * option Q)) : option nat :=
  match l with
  | [] => None
  | (_, None) :: l' => idxmax l'
  | (i, Some v) :: l' => Some (idxmax_loop (i, v) l')
  end.

(** [frame.loc[labels]]: the rows with these labels, in the order of the
    labels. *)
Definition loc {A : Type} (frame : list (nat * A)) (labels : list nat) : list A :=
  flat_map (fun i => map snd (filter (fun ir => Nat.eqb (fst ir) i) frame)) labels.

Definition find_peak_hours {arith : Arithmetic} (df : DataFrame) : list PeakRow * DataFrame :=
  (* df['hour'] = df['timestamp'].dt.hour *)
  let df := set_column "hour" (map (fun r => hour_of (timestamp r)) (rows df)) df in
  let key r := (building r, hour_of (timestamp r)) in
  let keys := group_keys (pair_eqb String.eqb Z.eqb) (pair_leb String.eqb String.leb Z.leb)
                         (map key (rows df)) in
  (* groupby(['building', 'hour'])['kwh'].mean().reset_index() *)
  let peak_hours :=
    map (fun k =>
           mkPeakRow (fst k) (snd k)
             (pd_mean (map kwh (filter (fun r => pair_eqb String.eqb Z.eqb (key r) k) (rows df)))))
        keys in
  let indexed := combine (seq 0 (List.length peak_hours)) peak_hours in
  (* peak_hours.groupby('building')['kwh'].idxmax() *)
  let labels :=
    flat_map (fun b =>
                match idxmax (map (fun ir => (fst ir, p_kwh (snd ir)))
                                  (filter (fun ir => String.eqb (p_building (snd ir)) b) indexed)) with
                | Some i => [i]
                | None => []
                end)
             (group_keys String.eqb String.leb (map p_building peak_hours)) in
  (loc indexed labels, df).

(* ------------------------------------------------------------------ *)
(** ** Construction of the object model in [main] *)

Definition build_manager (df_combined : DataFrame) : BuildingManager :=
  fold_left
    (fun manager building_name =>
       let building0 := Building_init building_name in
       let building_data := filter (in_building building_name) (rows df_combined) in
       let building1 :=
         fold_left (fun b row => add_reading b (timestamp row) (kwh row))
                   building_data building0 in
       add_building manager building1)
    (unique String.eqb (map building (rows df_combined)))
    [].

(* ------------------------------------------------------------------ *)
(** ** Double precision

    [round64 x] is the binary64 float nearest to [x], a tie going to the
    even significand.  The exponent is not bounded: there is no overflow
    and there are no subnormal numbers. *)

Definition Qpow2 (e : Z) : Q :=
  if (0 <=? e)%Z then inject_Z (2 ^ e) else 1 # Z.to_pos (2 ^ (- e)).

Definition round_half_even (x : Q) : Z :=
  let f := Qfloor x in
  match Qcompare (x - inject_Z f) (1 # 2) with
  | Lt => f
  | Gt => (f + 1)%Z
  | Eq => if Z.even f then f else (f + 1)%Z
  end.

(** For [0 < x], the exponent [e] with [2^52 <= x / 2^e < 2^53]. *)
Definition binade (x : Q) : Z :=
  let e := (Z.log2 (Qnum x) - Z.log2 (Zpos (Qden x)) - 52)%Z in
  if Qltb (x / Qpow2 e) (inject_Z (2 ^ 52)) then (e - 1)%Z else e.

Definition round64 (x : Q) : Q :=
  if Qeq_bool x 0 then 0
  else
    let a := Qabs x in
    let e := binade a in
    let r := Qred (inject_Z (round_half_even (a / Qpow2 e)) * Qpow2 e) in
    if Qltb 0 x then r else - r.

(** The compensated summation of pandas' grouped sum and mean. *)
Definition kahan_sum (values : list Q) : Q :=
  fst (fold_left
         (fun (st : Q * Q) val =>
            let (sumx, compensation) := st in
            let y := round64 (val - compensation) in
            let t := round64 (sumx + y) in
            (t, round64 (round64 (t - sumx) - y)))
         values (0, 0)).

#[local] Instance binary64 : Arithmetic := {|
  py_add x y := round64 (x + y);
  py_mul x y := round64 (x * y);
  py_quot x y := round64 (x / y);
  group_sum := kahan_sum;
  group_mean values := round64 (kahan_sum values / inject_Z (Z.of_nat (List.length values)))
|}.

(* ------------------------------------------------------------------ *)
(** ** Facts about the Python primitives *)

Lemma Qltb_lt (x y : Q) : Qltb x y = true <-> x < y.
Proof.
  unfold Qltb. rewrite negb_true_iff. split; intro H.
  - apply Qnot_le_lt. intro L. apply Qle_bool_iff in L. congruence.
  - destruct (Qle_bool y x) eqn:E; [|reflexivity].
    apply Qle_bool_iff in E. exfalso. apply (Qlt_not_le _ _ H E).
Qed.

Lemma Qltb_ge (x y : Q) : Qltb x y = false <-> y <= x.
Proof.
  unfold Qltb. rewrite negb_false_iff. apply Qle_bool_iff.
Qed.

Lemma max_loop_ge_best {A : Type} (key : A -> Q) (l : list A) :
  forall best, key best <= key (max_loop key best l).
Proof.
  induction l as [|x l IH]; intro best; simpl.
  - apply Qle_refl.
  - destruct (Qltb (key best) (key x)) eqn:E.
    + apply Qltb_lt in E. eapply Qle_trans; [apply Qlt_le_weak, E|apply IH].
    + apply IH.
Qed.

(** The loop of [max]: the result is the first item of [best :: l] whose
    key is maximal. *)
Lemma max_loop_first {A : Type} (key : A -> Q) (l : list A) :
  forall best,
    exists l1 l2,
      best :: l = l1 ++ max_loop key best l :: l2 /\
      (forall x, In x l1 -> key x < key (max_loop key best l)) /\
      (forall x, In x l2 -> key x <= key (max_loop key best l)).
Proof.
  induction l as [|x l IH]; intro best; simpl.
  - exists [], []. repeat split; intros ? [].
  - destruct (Qltb (key best) (key x)) eqn:E.
    + destruct (IH x) as (l1 & l2 & Heq & Hlt & Hle).
      exists (best :: l1), l2. split; [simpl; now rewrite <- Heq|]. split; [|exact Hle].
      intros y [<-|Hy]; [|now apply Hlt].
      apply Qltb_lt in E. eapply Qlt_le_trans; [exact E|apply max_loop_ge_best].
    + destruct (IH best) as (l1 & l2 & Heq & Hlt & Hle).
      apply Qltb_ge in E.
      destruct l1 as [|z l1]; simpl in Heq; injection Heq as H0 H1.
      * exists [], (x :: l2). split; [simpl; now rewrite <- H0, <- H1|].
        split; [intros ? []|].
        intros y [<-|Hy]; [now rewrite <- H0|now apply Hle].
      * exists (z :: x :: l1), l2. split; [simpl; now rewrite <- H0, <- H1|]. split; [|exact Hle].
        intros y [<-|[<-|Hy]].
        -- apply Hlt. now left.
        -- eapply Qle_lt_trans; [exact E|]. rewrite H0 at 1. apply Hlt. now left.
        -- apply Hlt. now right.
Qed.

(* ------------------------------------------------------------------ *)
(** ** Facts about [unique], [sort_by] and [group_keys] *)

Section Unique.
Context {A : Type} (eqb : A -> A -> bool).
Hypothesis eqb_spec : forall x y, eqb x y = true <-> x = y.

Lemma unique_In (l : list A) (x : A) : In x (unique eqb l) <-> In x l.
Proof.
  induction l as [|a l IH]; simpl; [tauto|].
  rewrite filter_In, IH, negb_true_iff. split.
  - intros [H|[H _]]; auto.
  - intros [H|H]; auto.
    destruct (eqb a x) eqn:E; [left; now apply eqb_spec|right; auto].
Qed.

Lemma unique_NoDup (l : list A) : NoDup (unique eqb l).
Proof.
  induction l as [|a l IH]; simpl; constructor.
  - rewrite filter_In, negb_true_iff. intros [_ H].
    assert (eqb a a = true) by now apply eqb_spec. congruence.
  - now apply NoDup_filter.
Qed.
End Unique.

Section SortBy.
Context {A : Type} (leb : A -> A -> bool).

Lemma insert_sorted_perm (x : A) (l : list A) :
  Permutation (x :: l) (insert_sorted leb x l).
Proof.
  induction l as [|y l IH]; simpl; [reflexivity|].
  destruct (leb x y); [reflexivity|].
  rewrite perm_swap. now constructor.
Qed.

Lemma sort_by_perm (l : list A) : Permutation l (sort_by leb l).
Proof.
  induction l as [|x l IH]; simpl; [constructor|].
  rewrite <- insert_sorted_perm. now constructor.
Qed.

Variable R : A -> A -> Prop.
Hypothesis R_trans : forall x y z, R x y -> R y z -> R x z.
Hypothesis leb_true : forall x y, leb x y = true -> R x y.
Hypothesis leb_false : forall x y, leb x y = false -> R y x.

Lemma insert_sorted_sorted (x : A) (l : list A) :
  StronglySorted R l -> StronglySorted R (insert_sorted leb x l).
Proof.
  induction 1 as [|y l Hs IH Hy]; simpl.
  - repeat constructor.
  - destruct (leb x y) eqn:E.
    + constructor; [now constructor|].
      apply leb_true in E. constructor; [exact E|].
      eapply Forall_impl; [|exact Hy]. intros z Hz. eapply R_trans; eauto.
    + constructor; [exact IH|].
      apply leb_false in E.
      eapply Permutation_Forall; [apply insert_sorted_perm|].
      now constructor.
Qed.

Lemma sort_by_sorted (l : list A) : StronglySorted R (sort_by leb l).
Proof.
  induction l as [|x l IH]; simpl; [constructor|].
  now apply insert_sorted_sorted.
Qed.
End SortBy.

Lemma StronglySorted_filter {A : Type} (R : A -> A -> Prop) (f : A -> bool) (l : list A) :
  StronglySorted R l -> StronglySorted R (filter f l).
Proof.
  induction 1 as [|x l Hs IH Hx]; simpl; [constructor|].
  destruct (f x); [|exact IH].
  constructor; [exact IH|].
  rewrite Forall_forall in *. intros y Hy. apply Hx.
  now apply filter_In in Hy.
Qed.

Section GroupKeys.
Context {A : Type} (eqb leb : A -> A -> bool).
Hypothesis eqb_spec : forall x y, eqb x y = true <-> x = y.

Lemma group_keys_perm (l : list A) : Permutation (unique eqb l) (group_keys eqb leb l).
Proof. apply sort_by_perm. Qed.

Lemma group_keys_In (l : list A) (x : A) : In x (group_keys eqb leb l) <-> In x l.
Proof.
  split; intro H.
  - apply (unique_In eqb eqb_spec).
    eapply Permutation_in; [symmetry; apply group_keys_perm|exact H].
  - eapply Permutation_in; [apply group_keys_perm|].
    now apply (unique_In eqb eqb_spec).
Qed.

Lemma group_keys_NoDup (l : list A) : NoDup (group_keys eqb leb l).
Proof.
  eapply Permutation_NoDup; [apply group_keys_perm|].
  now apply unique_NoDup.
Qed.
End GroupKeys.

Lemma string_eqb_spec (x y : string) : String.eqb x y = true <-> x = y.
Proof. apply String.eqb_eq. Qed.

Lemma pair_eqb_spec {A B : Type} (eqa : A -> A -> bool) (eqb : B -> B -> bool) :
  (forall x y, eqa x y = true <-> x = y) ->
  (forall x y, eqb x y = true <-> x = y) ->
  forall x y, pair_eqb eqa eqb x y = true <-> x = y.
Proof.
  intros Ha Hb [a b] [a' b']. unfold pair_eqb; simpl.
  rewrite andb_true_iff, Ha, Hb. split; [intros [-> ->]; reflexivity|].
  intros H; inversion H; auto.
Qed.

(* ------------------------------------------------------------------ *)
(** ** Implementations of the [sort_values] contract

    [stable_sort] keeps rows with equal timestamps in input order (what
    [kind='stable'] would do); [reversing_sort] is another ascending sort,
    which puts them in the opposite order.

    The default [kind] is numpy's quicksort.  It sorts a short column by
    insertion, which leaves equal keys in input order, and partitions a
    longer one, which moves them.  [quicksort] follows it in that: up to
    [SMALL_QUICKSORT] rows it is the insertion sort; beyond, it is an
    ascending sort that does not keep ties in place.  Where exactly numpy
    leaves the tied rows of a long column depends on its build, and nothing
    below depends on it. *)

Definition stable_sort : list Row -> list Row :=
  sort_by (fun a b => Z.leb (timestamp a) (timestamp b)).

Definition reversing_sort : list Row -> list Row :=
  sort_by (fun a b => Z.ltb (timestamp a) (timestamp b)).

Lemma stable_sort_sorted (l : list Row) : StronglySorted timestamp_le (stable_sort l).
Proof.
  apply sort_by_sorted; unfold timestamp_le; intros.
  - lia.
  - now apply Z.leb_le.
  - apply Z.leb_gt in H. lia.
Qed.

Lemma reversing_sort_sorted (l : list Row) : StronglySorted timestamp_le (reversing_sort l).
Proof.
  apply sort_by_sorted; unfold timestamp_le; intros.
  - lia.
  - apply Z.ltb_lt in H. lia.
  - now apply Z.ltb_ge.
Qed.

Definition SMALL_QUICKSORT : nat := 16.

Definition quicksort (l : list Row) : list Row :=
  if (List.length l <=? SMALL_QUICKSORT)%nat then stable_sort l else reversing_sort l.

Lemma quicksort_perm (l : list Row) : Permutation l (quicksort l).
Proof. unfold quicksort. destruct (_ <=? _)%nat; apply sort_by_perm. Qed.

Lemma quicksort_sorted (l : list Row) : StronglySorted timestamp_le (quicksort l).
Proof.
  unfold quicksort. destruct (_ <=? _)%nat;
    [apply stable_sort_sorted|apply reversing_sort_sorted].
Qed.

(* ------------------------------------------------------------------ *)
(** ** A concrete pandas for worked examples

    The parsers below cover the formats the examples use: columns of
    timestamps written [YYYY-MM-DD HH:MM:SS] and plain decimal numbers.
    Anything else is coerced to null. *)

Definition digit_of_ascii (c : ascii) : option Z :=
  let n := Z.of_nat (nat_of_ascii c) in
  if ((48 <=? n) && (n <=? 57))%Z then Some (n - 48)%Z else None.

Fixpoint digits_value (cs : list ascii) (acc : Z) : option Z :=
  match cs with
  | [] => Some acc
  | c :: cs' =>
      match digit_of_ascii c with
      | Some d => digits_value cs' (10 * acc + d)%Z
      | None => None
      end
  end.

Definition number_of_digits (cs : list ascii) : option Z :=
  match cs with
  | [] => None
  | _ :: _ => digits_value cs 0%Z
  end.

Definition is_leap (y : Z) : bool :=
  ((y mod 4 =? 0) && (negb (y mod 100 =? 0) || (y mod 400 =? 0)))%Z.

Definition days_in_month (y m : Z) : Z :=
  if (m =? 2)%Z then (if is_leap y then 29 else 28)%Z
  else if ((m =? 4) || (m =? 6) || (m =? 9) || (m =? 11))%Z then 30%Z
  else 31%Z.

(** Days from 1970-01-01 to a date of the proleptic Gregorian calendar. *)
Definition days_from_civil (y m d : Z) : Z :=
  let y' := (if m <=? 2 then y - 1 else y)%Z in
  let era := (y' / 400)%Z in
  let yoe := (y' - era * 400)%Z in
  let mp := (if m <=? 2 then m + 9 else m - 3)%Z in
  let doy := ((153 * mp + 2) / 5 + d - 1)%Z in
  let doe := (yoe * 365 + yoe / 4 - yoe / 100 + doy)%Z in
  (era * 146097 + doe - 719468)%Z.

Definition iso_datetime (s : string) : option Z :=
  match list_ascii_of_string s with
  | [y1; y2; y3; y4; "-"; m1; m2; "-"; d1; d2; " "; h1; h2; ":"; n1; n2; ":"; s1; s2]%char =>
      match number_of_digits [y1; y2; y3; y4], number_of_digits [m1; m2],
            number_of_digits [d1; d2], number_of_digits [h1; h2],
            number_of_digits [n1; n2], number_of_digits [s1; s2] with
      | Some y, Some m, Some d, Some h, Some n, Some sec =>
          if ((1 <=? m) && (m <=? 12) && (1 <=? d) && (d <=? days_in_month y m)
              && (h <? 24) && (n <? 60) && (sec <? 60))%Z
          then Some ((days_from_civil y m d * 86400 + h * 3600 + n * 60 + sec) * 1000000000)%Z
          else None
      | _, _, _, _, _, _ => None
      end
  | _ => None
  end.

Fixpoint split_at_dot (cs : list ascii) : list ascii * option (list ascii) :=
  match cs with
  | [] => ([], None)
  | c :: cs' =>
      if Ascii.eqb c "." then ([], Some cs')
      else let (a, b) := split_at_dot cs' in (c :: a, b)
  end.

Definition unsigned_decimal (cs : list ascii) : option Q :=
  match split_at_dot cs with
  | (ip, None) => option_map inject_Z (number_of_digits ip)
  | (ip, Some fp) =>
      match number_of_digits ip, number_of_digits fp with
      | Some i, Some f =>
          Some (inject_Z i + inject_Z f / inject_Z (10 ^ Z.of_nat (List.length fp)))
      | _, _ => None
      end
  end.

Definition decimal_of_string (s : string) : option Q :=
  match list_ascii_of_string s with
  | "-"%char :: cs => option_map Qopp (unsigned_decimal cs)
  | cs => unsigned_decimal cs
  end.

Definition demo_to_datetime (c : cell) : option Z :=
  match c with
  | CStr s => iso_datetime s
  | _ => None
  end.

Definition demo_to_datetime_column (column : list cell) : option (list (option Z)) :=
  Some (map demo_to_datetime column).

Lemma demo_to_datetime_column_length (column : list cell) (ts : list (option Z)) :
  demo_to_datetime_column column = Some ts -> List.length ts = List.length column.
Proof. intro H. injection H as <-. apply length_map. Qed.

#[local] Instance pandas_stable : Pandas := {|
  to_datetime := demo_to_datetime_column;
  to_datetime_length := demo_to_datetime_column_length;
  numeric_of_string := decimal_of_string;
  sort_values := stable_sort;
  sort_values_perm := sort_by_perm _;
  sort_values_sorted := stable_sort_sorted
|}.

Definition pandas_quicksort : Pandas := {|
  to_datetime := demo_to_datetime_column;
  to_datetime_length := demo_to_datetime_column_length;
  numeric_of_string := decimal_of_string;
  sort_values := quicksort;
  sort_values_perm := quicksort_perm;
  sort_values_sorted := quicksort_sorted
|}.

(* ------------------------------------------------------------------ *)
(** ** Ingestion: the loop as a whole *)

Lemma file_name_inj (f g : CsvFile) : file_name f = file_name g -> stem f = stem g.
Proof. unfold stem. now intros ->. Qed.

Definition dataset_rows (res : option DataFrame * list string) : list Row :=
  match fst res with
  | Some df => rows df
  | None => []
  end.

Lemma In_combine_nth_error {A B : Type} (l1 : list A) (l2 : list B) (a : A) (b : B) :
  In (a, b) (combine l1 l2) <->
  exists i, nth_error l1 i = Some a /\ nth_error l2 i = Some b.
Proof.
  revert l2. induction l1 as [|x l1 IH]; intros [|y l2]; simpl.
  - split; [intros []|intros [[|i] [H _]]; discriminate].
  - split; [intros []|intros [[|i] [H _]]; discriminate].
  - split; [intros []|intros [[|i] [_ H]]; discriminate].
  - rewrite IH. split.
    + intros [Heq|[i Hi]].
      * injection Heq as <- <-. now exists O.
      * now exists (S i).
    + intros [[|i] [Ha Hb]]; simpl in *.
      * left. congruence.
      * right. now exists i.
Qed.

Section IngestionFacts.
Context {pandas : Pandas}.

(** The frame a file appends to [combined_data]; [None] when its name goes
    to [failed_files] instead: the file cannot be read, lacks a required
    column, or the conversion of its timestamps raises. *)
Definition loaded_frame (f : CsvFile) : option (list Row) :=
  match read_csv f with
  | ReadFails => None
  | Table cols data =>
      if has_column "timestamp" cols && has_column "kwh" cols
      then clean (stem f) cols data
      else None
  end.

Definition loads (f : CsvFile) : bool := notna (loaded_frame f).

Definition loaded_rows (f : CsvFile) : list Row :=
  match loaded_frame f with
  | Some df => df
  | None => []
  end.

(** The concatenation the merge step sorts. *)
Definition merged_rows (csv_files : list CsvFile) : list Row :=
  List.concat (map loaded_rows (filter loads csv_files)).

Lemma ingest_step_spec (st : list (list Row) * list string) (f : CsvFile) :
  ingest_step st f =
  if loads f
  then ((fst st ++ [loaded_rows f])%list, snd st)
  else (fst st, (snd st ++ [file_name f])%list).
Proof.
  destruct st as [c fl]. unfold ingest_step, loads, loaded_rows, loaded_frame. simpl.
  destruct (read_csv f) as [|cols data]; [reflexivity|].
  destruct (has_column "timestamp" cols), (has_column "kwh" cols); try reflexivity.
  simpl. now destruct (clean (stem f) cols data).
Qed.

Lemma ingest_loop_spec (csv_files : list CsvFile) :
  forall c fl,
    fold_left ingest_step csv_files (c, fl) =
    ((c ++ map loaded_rows (filter loads csv_files))%list,
     (fl ++ map file_name (filter (fun f => negb (loads f)) csv_files))%list).
Proof.
  induction csv_files as [|f fs IH]; intros c fl; cbn [fold_left filter].
  - simpl. now rewrite !app_nil_r.
  - rewrite ingest_step_spec. cbn [fst snd].
    destruct (loads f); cbn [negb map]; rewrite IH, <- app_assoc; reflexivity.
Qed.

Lemma ingest_data_failed (csv_files : list CsvFile) :
  snd (ingest_data csv_files) =
  map file_name (filter (fun f => negb (loads f)) csv_files).
Proof.
  unfold ingest_data. rewrite ingest_loop_spec. simpl.
  destruct (map loaded_rows (filter loads csv_files)); reflexivity.
Qed.

Lemma ingest_data_dataset (csv_files : list CsvFile) :
  fst (ingest_data csv_files) =
  match filter loads csv_files with
  | [] => None
  | _ :: _ => Some (mkDataFrame (sort_values (merged_rows csv_files)) [])
  end.
Proof.
  unfold ingest_data, merged_rows. rewrite ingest_loop_spec. simpl.
  destruct (filter loads csv_files); reflexivity.
Qed.

Lemma dataset_rows_perm (csv_files : list CsvFile) :
  Permutation (merged_rows csv_files) (dataset_rows (ingest_data csv_files)).
Proof.
  unfold dataset_rows. rewrite ingest_data_dataset. unfold merged_rows.
  destruct (filter loads csv_files) eqn:E; simpl.
  - constructor.
  - apply sort_values_perm.
Qed.

(** Which rows [clean] keeps: those whose timestamp came out of the
    conversion of the column as a timestamp, and whose [kwh] cell is a
    number or text that parses as one. *)
Lemma clean_In (b : string) (cols : list string) (data : list (list cell))
      (ts : list (option Z)) (r : Row) :
  to_datetime (map (get_cell cols "timestamp") data) = Some ts ->
  exists df,
    clean b cols data = Some df /\
    (In r df <->
     exists i raw,
       nth_error data i = Some raw /\
       nth_error ts i = Some (Some (timestamp r)) /\
       to_numeric (get_cell cols "kwh" raw) = Some (kwh r) /\
       building r = b).
Proof.
  intro Hts. unfold clean. rewrite Hts. eexists. split; [reflexivity|].
  rewrite in_flat_map. split.
  - intros [[t k] [Hin Hr]].
    apply filter_In in Hin. destruct Hin as [Hin _].
    apply in_map_iff in Hin. destruct Hin as [[t' c] [Heq Hin]].
    apply filter_In in Hin. destruct Hin as [Hin _].
    simpl in Heq. injection Heq as <- <-.
    apply In_combine_nth_error in Hin. destruct Hin as [i [Ht Hc]].
    rewrite nth_error_map in Hc.
    destruct (nth_error data i) as [raw|] eqn:Eraw; [|discriminate].
    simpl in Hc. injection Hc as <-.
    destruct t' as [t|]; [|destruct Hr].
    destruct (to_numeric _) as [k|] eqn:Ek; [|destruct Hr].
    destruct Hr as [<-|[]]. exists i, raw. simpl. auto.
  - intros (i & raw & Hraw & Ht & Hk & Hb).
    exists (Some (timestamp r), Some (kwh r)). split.
    + apply filter_In. split; [|reflexivity].
      apply in_map_iff. exists (Some (timestamp r), get_cell cols "kwh" raw).
      simpl. split; [now rewrite Hk|].
      apply filter_In. split.
      * apply In_combine_nth_error. exists i. split; [exact Ht|].
        rewrite nth_error_map, Hraw. reflexivity.
      * simpl. destruct (get_cell cols "kwh" raw); simpl in *; congruence.
    + left. destruct r; simpl in *. now subst.
Qed.

Lemma clean_building (b : string) (cols : list string) (data : list (list cell))
      (df : list Row) (r : Row) :
  clean b cols data = Some df -> In r df -> building r = b.
Proof.
  intros Hc Hr.
  destruct (to_datetime (map (get_cell cols "timestamp") data)) as [ts|] eqn:Hts.
  - destruct (clean_In b cols data ts r Hts) as (df' & Hc' & Hiff).
    rewrite Hc in Hc'. injection Hc' as <-.
    apply Hiff in Hr. now destruct Hr as (i & raw & _ & _ & _ & H).
  - unfold clean in Hc. rewrite Hts in Hc. discriminate.
Qed.

Lemma loaded_rows_building (f : CsvFile) (r : Row) :
  In r (loaded_rows f) -> building r = stem f.
Proof.
  unfold loaded_rows, loaded_frame. destruct (read_csv f) as [|cols data]; [intros []|].
  destruct (has_column "timestamp" cols && has_column "kwh" cols); [|intros []].
  destruct (clean (stem f) cols data) as [df|] eqn:Hc; [|intros []].
  now apply clean_building with (cols := cols) (data := data) (df := df).
Qed.

Lemma merged_rows_In (csv_files : list CsvFile) (r : Row) :
  In r (merged_rows csv_files) <->
  exists f, In f csv_files /\ loads f = true /\ In r (loaded_rows f).
Proof.
  unfold merged_rows. rewrite in_concat. split.
  - intros [l [Hl Hr]]. apply in_map_iff in Hl. destruct Hl as [f [<- Hf]].
    apply filter_In in Hf. destruct Hf. eauto.
  - intros [f [Hf [Hv Hr]]]. exists (loaded_rows f). split; [|exact Hr].
    apply in_map. now apply filter_In.
Qed.

Lemma dataset_rows_In (csv_files : list CsvFile) (r : Row) :
  In r (dataset_rows (ingest_data csv_files)) <-> In r (merged_rows csv_files).
Proof.
  split; apply Permutation_in; [symmetry|]; apply dataset_rows_perm.
Qed.

(** The rows of a file that loads, by where they come from. *)
Lemma loaded_rows_In (f : CsvFile) (r : Row) :
  loads f = true ->
  (In r (loaded_rows f) <->
   exists cols data ts i raw,
     read_csv f = Table cols data /\
     has_column "timestamp" cols = true /\
     has_column "kwh" cols = true /\
     to_datetime (map (get_cell cols "timestamp") data) = Some ts /\
     nth_error data i = Some raw /\
     nth_error ts i = Some (Some (timestamp r)) /\
     to_numeric (get_cell cols "kwh" raw) = Some (kwh r) /\
     building r = stem f).
Proof.
  unfold loads, loaded_rows, loaded_frame.
  destruct (read_csv f) as [|cols data] eqn:E; [discriminate|].
  destruct (has_column "timestamp" cols) eqn:Ht; [|discriminate].
  destruct (has_column "kwh" cols) eqn:Hk; [|discriminate]. simpl.
  destruct (to_datetime (map (get_cell cols "timestamp") data)) as [ts|] eqn:Hts.
  - destruct (clean_In (stem f) cols data ts r Hts) as (df & Hc & Hiff).
    rewrite Hc. intros _. rewrite Hiff. split.
    + intros (i & raw & H1 & H2 & H3 & H4). exists cols, data, ts, i, raw. auto 10.
    + intros (cols' & data' & ts' & i & raw & E' & _ & _ & Hts' & H1 & H2 & H3 & H4).
      injection E' as <- <-. rewrite Hts in Hts'. injection Hts' as <-.
      exists i, raw. auto.
  - unfold clean. rewrite Hts. discriminate.
Qed.
End IngestionFacts.

(* ------------------------------------------------------------------ *)
(** ** Claims about ingestion *)

Definition negative_source : CsvFile :=
  mkCsvFile "Library.csv"
    (Table ["timestamp"; "kwh"]
       [[CStr "2024-01-01 10:00:00"; CNum (-5)];
        [CStr "2024-01-01 11:00:00"; CNum 12]]).

(** C1, as stated, fails: a source row with a negative [kwh] is part of the
    dataset [ingest_data] returns. *)
Lemma negative_kwh_row_is_ingested :
  exists r, In r (dataset_rows (@ingest_data pandas_stable [negative_source])) /\ kwh r < 0.
Proof.
  exists (mkRow 1704103200000000000 (-5) "Library"). split.
  - vm_compute. now left.
  - reflexivity.
Qed.

(** C1 (amended): every row of the dataset returned by [ingest_data] has a
    non-null timestamp and a [kwh] that is a number (not [NaN]), whatever
    its sign: the row stems from a row of a source that has both columns,
    whose timestamp came out of the conversion of the timestamp column as a
    timestamp, and whose [kwh] cell is a number or parses as one; it
    carries the stem of that file. *)
Theorem dataset_rows_are_parsed_source_rows {pandas : Pandas}
        (csv_files : list CsvFile) (r : Row) :
  In r (dataset_rows (ingest_data csv_files)) ->
  exists f cols data ts i raw,
    In f csv_files /\
    read_csv f = Table cols data /\
    has_column "timestamp" cols = true /\
    has_column "kwh" cols = true /\
    to_datetime (map (get_cell cols "timestamp") data) = Some ts /\
    nth_error data i = Some raw /\
    nth_error ts i = Some (Some (timestamp r)) /\
    to_numeric (get_cell cols "kwh" raw) = Some (kwh r) /\
    building r = stem f.
Proof.
  rewrite dataset_rows_In, merged_rows_In.
  intros (f & Hf & Hv & Hr).
  apply (loaded_rows_In f r Hv) in Hr.
  destruct Hr as (cols & data & ts & i & raw & H).
  exists f, cols, data, ts, i, raw. tauto.
Qed.

Lemma dataset_rows_are_parsed_source_rows_witness :
  exists f cols data ts i raw,
    In f [negative_source] /\
    read_csv f = Table cols data /\
    has_column "timestamp" cols = true /\
    has_column "kwh" cols = true /\
    @to_datetime pandas_stable (map (get_cell cols "timestamp") data) = Some ts /\
    nth_error data i = Some raw /\
    nth_error ts i = Some (Some 1704103200000000000%Z) /\
    @to_numeric pandas_stable (get_cell cols "kwh" raw) = Some (-5) /\
    "Library"%string = stem f.
Proof.
  apply (@dataset_rows_are_parsed_source_rows pandas_stable [negative_source]
           (mkRow 1704103200000000000 (-5) "Library")).
  vm_compute. now left.
Defined.

Definition all_rows_invalid_source : CsvFile :=
  mkCsvFile "Library.csv"
    (Table ["timestamp"; "kwh"]
       [[CStr "2024-01-01 10:00:00"; CNull];
        [CStr "not a date"; CNum 3];
        [CStr "2024-01-01 12:00:00"; CStr "n/a"]]).

(** C2, on the code: a lone source that has both columns and loses all its
    rows to row validation makes [ingest_data] return an empty dataset, not
    [None]. *)
Theorem ingest_data_returns_empty_dataset :
  @ingest_data pandas_stable [all_rows_invalid_source] = (Some (mkDataFrame [] []), []).
Proof. reflexivity. Qed.

(** The ways a source can end in the failure list. *)
Definition missing_required_column (f : CsvFile) : Prop :=
  exists cols data,
    read_csv f = Table cols data /\
    (has_column "timestamp" cols = false \/ has_column "kwh" cols = false).

Definition conversion_raises {pandas : Pandas} (f : CsvFile) : Prop :=
  exists cols data,
    read_csv f = Table cols data /\
    has_column "timestamp" cols = true /\
    has_column "kwh" cols = true /\
    to_datetime (map (get_cell cols "timestamp") data) = None.

Definition fails {pandas : Pandas} (f : CsvFile) : Prop :=
  read_csv f = ReadFails \/ missing_required_column f \/ conversion_raises f.

Lemma loads_false_iff {pandas : Pandas} (f : CsvFile) : loads f = false <-> fails f.
Proof.
  unfold loads, loaded_frame, fails, missing_required_column, conversion_raises.
  destruct (read_csv f) as [|cols data] eqn:E.
  - split; auto.
  - destruct (has_column "timestamp" cols) eqn:Ht; destruct (has_column "kwh" cols) eqn:Hk;
      cbn [andb].
    + unfold clean.
      destruct (to_datetime (map (get_cell cols "timestamp") data)) as [ts|] eqn:Hts; simpl.
      * split; [discriminate|].
        intros [H|[(c & d & H & [H'|H'])|(c & d & H & _ & _ & H')]];
          try discriminate; injection H as <- <-; congruence.
      * split; [|reflexivity]. intros _. right. right. exists cols, data. auto.
    + split; [|reflexivity]. intros _. right. left. exists cols, data. auto.
    + split; [|reflexivity]. intros _. right. left. exists cols, data. auto.
    + split; [|reflexivity]. intros _. right. left. exists cols, data. auto.
Qed.

(** [None] is returned exactly when every source ends in the failure list:
    it cannot be read, it lacks a required column, or the conversion of its
    timestamps raises.  The number of rows that survive plays no part. *)
Theorem ingest_data_None_iff {pandas : Pandas} (csv_files : list CsvFile) :
  fst (ingest_data csv_files) = None <->
  forall f, In f csv_files -> fails f.
Proof.
  rewrite ingest_data_dataset. split.
  - intros H f Hf. apply loads_false_iff.
    destruct (loads f) eqn:E; [|reflexivity].
    assert (Hin : In f (filter loads csv_files)) by now apply filter_In.
    destruct (filter loads csv_files); [destruct Hin|discriminate].
  - intro H. destruct (filter loads csv_files) as [|f l] eqn:E; [reflexivity|].
    assert (Hin : In f (filter loads csv_files)) by (rewrite E; now left).
    apply filter_In in Hin. destruct Hin as [Hin Hv].
    apply H, loads_false_iff in Hin. rewrite Hin in Hv. discriminate.
Qed.

(** Rows with equal timestamps keep their input order. *)
Definition keeps_order_of_ties (input output : list Row) : Prop :=
  forall t,
    filter (fun r => Z.eqb (timestamp r) t) output =
    filter (fun r => Z.eqb (timestamp r) t) input.

Definition tie_sources : list CsvFile :=
  [mkCsvFile "Admin.csv"
     (Table ["timestamp"; "kwh"] [[CStr "2024-01-01 10:00:00"; CNum 1]]);
   mkCsvFile "Library.csv"
     (Table ["timestamp"; "kwh"] [[CStr "2024-01-01 10:00:00"; CNum 2]])].

(** Eighteen readings of one meter with the same timestamp. *)
Definition tied_readings_source : CsvFile :=
  mkCsvFile "Library.csv"
    (Table ["timestamp"; "kwh"]
       (map (fun k => [CStr "2024-01-01 10:00:00"; CNum (inject_Z k)])
            [1; 2; 3; 4; 5; 6; 7; 8; 9; 10; 11; 12; 13; 14; 15; 16; 17; 18]%Z)).

(** C3, as stated, fails: eighteen rows with the same timestamp are too
    many for the insertion pass of the default sort, and do not leave
    [ingest_data] in the order they had in the concatenated input. *)
Lemma ties_reordered_by_default_sort :
  ~ keeps_order_of_ties (@merged_rows pandas_quicksort [tied_readings_source])
      (dataset_rows (@ingest_data pandas_quicksort [tied_readings_source])).
Proof.
  intro H. specialize (H 1704103200000000000%Z).
  vm_compute in H. discriminate H.
Qed.

Lemma Permutation_filter' {A : Type} (f : A -> bool) (l l' : list A) :
  Permutation l l' -> Permutation (filter f l) (filter f l').
Proof.
  induction 1 as [|x l l' H IH|x y l|l l' l'' H1 IH1 H2 IH2]; simpl.
  - constructor.
  - destruct (f x); [now constructor|exact IH].
  - destruct (f x), (f y); try reflexivity. apply perm_swap.
  - now transitivity (filter f l').
Qed.

(** Two ascending orders of the same rows are the same list when no two
    rows share a timestamp. *)
Lemma sorted_permutation_unique (l1 l2 : list Row) :
  StronglySorted timestamp_le l1 -> StronglySorted timestamp_le l2 ->
  Permutation l1 l2 -> NoDup (map timestamp l1) -> l1 = l2.
Proof.
  revert l2. induction l1 as [|a l1 IH]; intros l2 H1 H2 Hp Hnd.
  - apply Permutation_nil in Hp. now subst.
  - destruct l2 as [|b l2]; [symmetry in Hp; apply Permutation_nil in Hp; discriminate|].
    apply StronglySorted_inv in H1. destruct H1 as [H1 Ha].
    apply StronglySorted_inv in H2. destruct H2 as [H2 Hb].
    simpl in Hnd. apply NoDup_cons_iff in Hnd. destruct Hnd as [Hna Hnd].
    assert (Hab : a = b).
    { assert (Hbin : In b (a :: l1))
        by (apply Permutation_in with (b :: l2); [now symmetry|now left]).
      assert (Hain : In a (b :: l2))
        by (apply Permutation_in with (a :: l1); [assumption|now left]).
      destruct Hbin as [Hbin|Hbin]; [exact Hbin|].
      destruct Hain as [Hain|Hain]; [now symmetry|].
      rewrite Forall_forall in Ha, Hb.
      pose proof (Ha b Hbin) as Hle1. pose proof (Hb a Hain) as Hle2.
      unfold timestamp_le in Hle1, Hle2.
      exfalso. apply Hna. replace (timestamp a) with (timestamp b) by lia.
      now apply in_map. }
    subst b. f_equal. apply IH; auto.
    now apply Permutation_cons_inv with a.
Qed.

(** C3 (amended): the dataset returned by [ingest_data] is sorted by
    timestamp ascending and holds the same rows as the concatenated input;
    the rows that share a timestamp are the same in both but may come in
    another order; when no two rows share a timestamp, the dataset is the
    list a stable sort gives. *)
Theorem ingest_data_sorted_permutation {pandas : Pandas} (csv_files : list CsvFile) :
  StronglySorted timestamp_le (dataset_rows (ingest_data csv_files)) /\
  Permutation (merged_rows csv_files) (dataset_rows (ingest_data csv_files)) /\
  (forall t,
     Permutation (filter (fun r => Z.eqb (timestamp r) t) (merged_rows csv_files))
                 (filter (fun r => Z.eqb (timestamp r) t)
                         (dataset_rows (ingest_data csv_files)))) /\
  (NoDup (map timestamp (merged_rows csv_files)) ->
   dataset_rows (ingest_data csv_files) = stable_sort (merged_rows csv_files)).
Proof.
  assert (Hs : StronglySorted timestamp_le (dataset_rows (ingest_data csv_files))).
  { unfold dataset_rows. rewrite ingest_data_dataset.
    destruct (filter loads csv_files); simpl.
    - constructor.
    - apply sort_values_sorted. }
  pose proof (dataset_rows_perm csv_files) as Hp.
  repeat split; auto.
  - intro t. now apply Permutation_filter'.
  - intro Hnd. symmetry. apply sorted_permutation_unique.
    + apply stable_sort_sorted.
    + exact Hs.
    + transitivity (merged_rows csv_files); [|exact Hp].
      symmetry. apply sort_by_perm.
    + apply (Permutation_NoDup (l := map timestamp (merged_rows csv_files))); [|exact Hnd].
      apply Permutation_map, sort_by_perm.
Qed.

Definition all_rows_dropped {pandas : Pandas} (f : CsvFile) : Prop :=
  exists cols data,
    read_csv f = Table cols data /\
    has_column "timestamp" cols = true /\
    has_column "kwh" cols = true /\
    clean (stem f) cols data = Some [].

(** The rows of a result that carry the name of a source. *)
Definition rows_from (f : CsvFile) (res : option DataFrame * list string) : list Row :=
  filter (in_building (stem f)) (dataset_rows res).

Lemma stem_determines_file (csv_files : list CsvFile) (f g : CsvFile) :
  NoDup (map stem csv_files) -> In f csv_files -> In g csv_files ->
  stem f = stem g -> f = g.
Proof.
  induction csv_files as [|h l IH]; simpl; [intros _ []|].
  intros Hnd Hf Hg Heq. apply NoDup_cons_iff in Hnd. destruct Hnd as [Hnot Hnd].
  destruct Hf as [<-|Hf], Hg as [<-|Hg]; auto.
  - exfalso. apply Hnot. rewrite Heq. now apply in_map.
  - exfalso. apply Hnot. rewrite <- Heq. now apply in_map.
Qed.

Section StructuralFailure.
Context {pandas : Pandas}.
Variable csv_files : list CsvFile.
Hypothesis distinct_stems : NoDup (map stem csv_files).

Lemma rows_from_nil (f : CsvFile) :
  In f csv_files ->
  (loads f = false \/ loaded_rows f = []) ->
  rows_from f (ingest_data csv_files) = [].
Proof.
  intros Hf Hno. unfold rows_from.
  destruct (filter _ _) as [|r l] eqn:E; [reflexivity|exfalso].
  assert (Hr : In r (filter (in_building (stem f)) (dataset_rows (ingest_data csv_files))))
    by (rewrite E; now left).
  apply filter_In in Hr. destruct Hr as [Hr Hb].
  apply String.eqb_eq in Hb.
  apply dataset_rows_In, merged_rows_In in Hr. destruct Hr as (g & Hg & Hv & Hr).
  assert (g = f).
  { apply (stem_determines_file csv_files); auto.
    rewrite <- Hb. symmetry. now apply loaded_rows_building. }
  subst g. destruct Hno as [Hno|Hno]; [congruence|].
  rewrite Hno in Hr. destruct Hr.
Qed.

Lemma failed_files_In (f : CsvFile) :
  In f csv_files ->
  (In (file_name f) (snd (ingest_data csv_files)) <-> loads f = false).
Proof.
  intro Hf. rewrite ingest_data_failed, in_map_iff. split.
  - intros (g & Hn & Hg). apply filter_In in Hg. destruct Hg as [Hg Hv].
    apply file_name_inj in Hn.
    assert (g = f) by (apply (stem_determines_file csv_files); auto).
    subst g. now apply negb_true_iff.
  - intro Hv. exists f. split; [reflexivity|].
    apply filter_In. split; [exact Hf|]. now rewrite Hv.
Qed.

(** C7: among the files of one directory (their stems are distinct), a
    source that lacks the [timestamp] or the [kwh] column contributes no
    row and its name is in the failure list; a source that has both
    columns and loses every row to row validation contributes no row and
    its name is not in the failure list. *)
Theorem structural_failure_vs_dropped_rows (f : CsvFile) :
  In f csv_files ->
  (missing_required_column f ->
   rows_from f (ingest_data csv_files) = [] /\
   In (file_name f) (snd (ingest_data csv_files))) /\
  (all_rows_dropped f ->
   rows_from f (ingest_data csv_files) = [] /\
   ~ In (file_name f) (snd (ingest_data csv_files))).
Proof.
  intro Hf. split.
  - intro Hmiss.
    assert (Hv : loads f = false) by (apply loads_false_iff; right; now left).
    split; [apply rows_from_nil; auto|now apply failed_files_In].
  - intros (cols & data & E & Ht & Hk & Hclean). split.
    + apply rows_from_nil; auto. right.
      unfold loaded_rows, loaded_frame. now rewrite E, Ht, Hk, Hclean.
    + rewrite failed_files_In by assumption.
      unfold loads, loaded_frame. rewrite E, Ht, Hk, Hclean. discriminate.
Qed.
End StructuralFailure.

Definition scenario_sources : list CsvFile :=
  [mkCsvFile "Admin.csv"
     (Table ["timestamp"; "kwh"] [[CStr "2024-01-01 10:00:00"; CNum 40]]);
   mkCsvFile "Gym.csv"
     (Table ["timestamp"; "power"] [[CStr "2024-01-01 10:00:00"; CNum 7]]);
   all_rows_invalid_source].

Lemma structural_failure_vs_dropped_rows_witness :
  let gym := nth 1 scenario_sources all_rows_invalid_source in
  let res := @ingest_data pandas_stable scenario_sources in
  (rows_from gym res = [] /\ In "Gym.csv" (snd res)) /\
  (rows_from all_rows_invalid_source res = [] /\ ~ In "Library.csv" (snd res)).
Proof.
  assert (Hnd : NoDup (map stem scenario_sources)).
  { repeat constructor; simpl; intuition discriminate. }
  split.
  - apply (@structural_failure_vs_dropped_rows pandas_stable scenario_sources Hnd
             (nth 1 scenario_sources all_rows_invalid_source)).
    + simpl. auto.
    + exists ["timestamp"; "power"], [[CStr "2024-01-01 10:00:00"; CNum 7]].
      split; [reflexivity|right; reflexivity].
  - apply (@structural_failure_vs_dropped_rows pandas_stable scenario_sources Hnd
             all_rows_invalid_source).
    + simpl. auto.
    + eexists _, _. repeat split; reflexivity.
Defined.

(* ------------------------------------------------------------------ *)
(** ** Claims about the object model *)

(** C9: for a building with at least one reading, [get_peak_consumption]
    returns a reading of maximal [kwh]: every reading stored before it is
    strictly smaller, every reading stored after it is at most as large,
    so among readings that tie for the maximum it is the first one. *)
Theorem get_peak_consumption_first_maximum (b : Building) :
  meter_readings b <> [] ->
  exists r before after,
    get_peak_consumption b = Ret (Some r) /\
    meter_readings b = (before ++ r :: after)%list /\
    (forall x, In x before -> mr_kwh x < mr_kwh r) /\
    (forall x, In x after -> mr_kwh x <= mr_kwh r).
Proof.
  intro Hne. unfold get_peak_consumption.
  destruct (meter_readings b) as [|x l]; [congruence|]. simpl.
  destruct (max_loop_first mr_kwh l x) as (l1 & l2 & Heq & Hlt & Hle).
  exists (max_loop mr_kwh x l), l1, l2. auto.
Qed.

Definition tied_building : Building :=
  mkBuilding "Library"
    [mkMeterReading 1 10; mkMeterReading 2 20; mkMeterReading 3 5; mkMeterReading 4 20].

Lemma get_peak_consumption_first_maximum_witness :
  exists r before after,
    get_peak_consumption tied_building = Ret (Some r) /\
    meter_readings tied_building = (before ++ r :: after)%list /\
    (forall x, In x before -> mr_kwh x < mr_kwh r) /\
    (forall x, In x after -> mr_kwh x <= mr_kwh r).
Proof.
  apply (get_peak_consumption_first_maximum tied_building).
  simpl. discriminate.
Defined.

Example tied_building_peak :
  get_peak_consumption tied_building = Ret (Some (mkMeterReading 2 20)).
Proof. reflexivity. Qed.

(** C10: on a building without readings, [calculate_total_consumption]
    returns 0, [calculate_average_consumption] returns 0 (no division is
    attempted), and [get_peak_consumption] returns [None] (nothing is
    raised). *)
Theorem no_readings_defaults {arith : Arithmetic} (n : string) :
  calculate_total_consumption (mkBuilding n []) = 0 /\
  calculate_average_consumption (mkBuilding n []) = Ret 0 /\
  get_peak_consumption (mkBuilding n []) = Ret None.
Proof. repeat split. Qed.

(* ------------------------------------------------------------------ *)
(** ** Rows of a grouped view *)

(** In a view with one row per key, the rows of a key are that one row. *)
Lemma filter_one_per_key {B : Type} (mk : string -> B) (key : B -> string)
      (ks : list string) (b : string) :
  (forall k, key (mk k) = k) ->
  NoDup ks -> In b ks ->
  filter (fun s => String.eqb (key s) b) (map mk ks) = [mk b].
Proof.
  intros Hkey. induction 1 as [|k ks Hk Hnd IH]; simpl; [intros []|].
  rewrite Hkey. intros [->|Hb].
  - rewrite String.eqb_refl. f_equal.
    clear IH. induction ks as [|k' ks IH]; simpl; [reflexivity|].
    rewrite Hkey. destruct (String.eqb_spec k' b) as [->|Hne].
    + exfalso. apply Hk. now left.
    + apply IH.
      * intro H. apply Hk. now right.
      * now inversion Hnd.
  - destruct (String.eqb_spec k b) as [->|Hne]; [contradiction|auto].
Qed.

(* ------------------------------------------------------------------ *)
(** ** The object model built by [main] *)

Definition reading_of (r : Row) : MeterReading := mkMeterReading (timestamp r) (kwh r).

Definition building_of (df : DataFrame) (n : string) : Building :=
  mkBuilding n (map reading_of (filter (in_building n) (rows df))).

Lemma add_readings_spec (data : list Row) :
  forall b,
    fold_left (fun b row => add_reading b (timestamp row) (kwh row)) data b =
    mkBuilding (name b) (meter_readings b ++ map reading_of data).
Proof.
  induction data as [|r data IH]; intro b; simpl.
  - rewrite app_nil_r. now destruct b.
  - rewrite IH. simpl. now rewrite <- app_assoc.
Qed.

Lemma get_building_dict_set (m : BuildingManager) (k k' : string) (v : Building) :
  get_building (dict_set m k v) k' =
  if String.eqb k k' then Some v else get_building m k'.
Proof.
  induction m as [|[k0 v0] m IH]; simpl.
  - reflexivity.
  - destruct (String.eqb_spec k0 k) as [->|Hne]; simpl.
    + destruct (String.eqb k k'); reflexivity.
    + rewrite IH. destruct (String.eqb_spec k0 k') as [->|Hne'].
      * destruct (String.eqb_spec k k'); [congruence|reflexivity].
      * reflexivity.
Qed.

Lemma build_manager_loop (df : DataFrame) (names : list string) (b : string) :
  forall m,
    get_building
      (fold_left
         (fun manager building_name =>
            add_building manager
              (fold_left (fun b row => add_reading b (timestamp row) (kwh row))
                         (filter (in_building building_name) (rows df))
                         (Building_init building_name)))
         names m) b =
    if existsb (String.eqb b) names then Some (building_of df b) else get_building m b.
Proof.
  induction names as [|n names IH]; intro m; simpl; [reflexivity|].
  rewrite IH. destruct (existsb (String.eqb b) names); [now rewrite orb_true_r|].
  rewrite orb_false_r, add_readings_spec. unfold add_building. simpl.
  rewrite get_building_dict_set, String.eqb_sym.
  destruct (String.eqb_spec b n) as [->|]; reflexivity.
Qed.

Lemma build_manager_get (df : DataFrame) (b : string) :
  In b (map building (rows df)) ->
  get_building (build_manager df) b = Some (building_of df b).
Proof.
  intro Hb. unfold build_manager. rewrite build_manager_loop.
  assert (E : existsb (String.eqb b) (unique String.eqb (map building (rows df))) = true).
  { apply existsb_exists. exists b. split; [|apply String.eqb_refl].
    now apply (unique_In _ string_eqb_spec). }
  now rewrite E.
Qed.

(* ------------------------------------------------------------------ *)
(** ** Claims about the summary and about the frame *)

Lemma Permutation_filter_split {A : Type} (f : A -> bool) (l : list A) :
  Permutation (filter f l ++ filter (fun x => negb (f x)) l) l.
Proof.
  induction l as [|a l IH]; simpl; [constructor|].
  destruct (f a); simpl.
  - now constructor.
  - symmetry. apply Permutation_cons_app. now symmetry.
Qed.

Lemma filter_other_building (k b : string) (l : list Row) :
  b <> k ->
  filter (in_building b) (filter (fun r => negb (in_building k r)) l) =
  filter (in_building b) l.
Proof.
  intro Hne. induction l as [|a l IH]; [reflexivity|].
  cbn [filter].
  assert (Hcase : in_building k a = true -> in_building b a = false).
  { unfold in_building. intro Hk. apply String.eqb_eq in Hk.
    apply String.eqb_neq. congruence. }
  destruct (in_building k a); cbn [negb filter].
  - now rewrite (Hcase eq_refl).
  - destruct (in_building b a); [now rewrite IH|exact IH].
Qed.

Lemma flat_map_ext_in {A B : Type} (f g : A -> list B) (l : list A) :
  (forall a, In a l -> f a = g a) -> flat_map f l = flat_map g l.
Proof.
  induction l as [|a l IH]; intro H; simpl; [reflexivity|].
  rewrite (H a (or_introl eq_refl)), IH; [reflexivity|].
  intros x Hx. apply H. now right.
Qed.

(** The groups of a [groupby('building')] hold every row once. *)
Lemma Permutation_by_building (ks : list string) :
  NoDup ks ->
  forall l : list Row,
    (forall r, In r l -> In (building r) ks) ->
    Permutation (flat_map (fun b => filter (in_building b) l) ks) l.
Proof.
  induction 1 as [|k ks Hk Hnd IH]; intros l Hin.
  - destruct l as [|r l]; [constructor|]. destruct (Hin r (or_introl eq_refl)).
  - cbn [flat_map].
    set (l' := filter (fun r => negb (in_building k r)) l).
    assert (Hsame : flat_map (fun b => filter (in_building b) l) ks =
                    flat_map (fun b => filter (in_building b) l') ks).
    { apply flat_map_ext_in. intros b Hb. unfold l'.
      symmetry. apply filter_other_building. intros ->. contradiction. }
    rewrite Hsame.
    rewrite (IH l').
    + apply Permutation_filter_split.
    + intros r Hr. apply filter_In in Hr. destruct Hr as [Hr Hnk].
      destruct (Hin r Hr) as [Heq|Hks]; [|exact Hks].
      unfold in_building in Hnk. rewrite <- Heq, String.eqb_refl in Hnk. discriminate.
Qed.

(** Three readings of one meter, and two readings of each of two meters;
    the values are the floats written [0.1], [0.2], ... *)
Definition rounding_dataset : DataFrame :=
  mkDataFrame
    [mkRow 1704103200000000000 (round64 (1 # 10)) "Lab";
     mkRow 1704106800000000000 (round64 (2 # 10)) "Lab";
     mkRow 1704110400000000000 (round64 (3 # 10)) "Lab"]
    [].

Definition two_meters_dataset : DataFrame :=
  mkDataFrame
    [mkRow 1704103200000000000 (round64 (1 # 10)) "Admin";
     mkRow 1704103200000000000 (round64 (5 # 10)) "Library";
     mkRow 1704106800000000000 (round64 (6 # 10)) "Admin";
     mkRow 1704106800000000000 (round64 (9 # 10)) "Library"]
    [].

(** C8, as stated, fails in double precision.  For readings 0.1, 0.2 and
    0.3 the summary has the total 0.6 and the Building the total
    0.6000000000000001.  For two meters with readings 0.1, 0.6 and 0.5,
    0.9 the totals 0.7 and 1.4 add up to 2.0999999999999996, and the
    readings of the dataset to 2.1, whether they are added from the left
    or with compensation. *)
Lemma summary_totals_differ_in_binary64 :
  (exists s m,
      filter (fun s => String.eqb (s_building s) "Lab")
             (building_wise_summary rounding_dataset) = [s] /\
      get_building (build_manager rounding_dataset) "Lab" = Some m /\
      total_kwh s < calculate_total_consumption m) /\
  (let totals := map total_kwh (building_wise_summary two_meters_dataset) in
   let readings := map kwh (rows two_meters_dataset) in
   py_sum totals < py_sum readings /\ py_sum totals < pd_sum readings /\
   pd_sum totals < py_sum readings /\ pd_sum totals < pd_sum readings).
Proof.
  split.
  - eexists _, _. split; [reflexivity|]. split; [reflexivity|]. vm_compute. reflexivity.
  - vm_compute. repeat split.
Qed.

(** C8 (amended): for every canonical dataset, the building-wise summary
    has exactly one row for each entity of the dataset; its [total_kwh]
    is the sum pandas takes of the [kwh] of the rows of that entity; the
    readings of the Building that [main] fills for the entity carry the
    same values in the same order, and the total consumption of the
    Building is the sum Python takes of them.  Every row of the dataset
    belongs to the rows of exactly one entity of the summary. *)
Theorem building_summary_totals {arith : Arithmetic} (df : DataFrame) :
  (forall b,
      In b (map building (rows df)) ->
      exists s m,
        filter (fun s => String.eqb (s_building s) b) (building_wise_summary df) = [s] /\
        get_building (build_manager df) b = Some m /\
        map mr_kwh (meter_readings m) = map kwh (filter (in_building b) (rows df)) /\
        total_kwh s = pd_sum (map kwh (filter (in_building b) (rows df))) /\
        calculate_total_consumption m = py_sum (map kwh (filter (in_building b) (rows df)))) /\
  Permutation
    (flat_map (fun s => filter (in_building (s_building s)) (rows df))
              (building_wise_summary df))
    (rows df).
Proof.
  split.
  - intros b Hb.
    eexists _, (building_of df b). split; [|split; [|split; [|split]]].
    + unfold building_wise_summary.
      apply (filter_one_per_key _ s_building); [reflexivity| |].
      * apply group_keys_NoDup, string_eqb_spec.
      * now apply (group_keys_In _ _ string_eqb_spec).
    + now apply build_manager_get.
    + unfold building_of. cbn [meter_readings]. now rewrite map_map.
    + reflexivity.
    + unfold calculate_total_consumption, building_of. cbn [meter_readings].
      now rewrite map_map.
  - unfold building_wise_summary. rewrite flat_map_concat_map, map_map.
    cbn [s_building]. rewrite <- flat_map_concat_map.
    apply Permutation_by_building.
    + apply group_keys_NoDup, string_eqb_spec.
    + intros r Hr. apply (group_keys_In _ _ string_eqb_spec). now apply in_map.
Qed.

(** C4, on the code: on a dataset as [ingest_data] returns it,
    [calculate_daily_totals] leaves the frame with a new column [date] and
    [find_peak_hours] leaves it with a new column [hour];
    [calculate_weekly_aggregates] works on a copy and leaves it as it was.
    No view changes the rows. *)
Theorem views_assign_columns_in_place {arith : Arithmetic} (rs : list Row) :
  let df := mkDataFrame rs [] in
  columns df = ["timestamp"; "kwh"; "building"] /\
  columns (snd (calculate_daily_totals df)) = ["timestamp"; "kwh"; "building"; "date"] /\
  columns (snd (find_peak_hours df)) = ["timestamp"; "kwh"; "building"; "hour"] /\
  snd (calculate_weekly_aggregates df) = df /\
  rows (snd (calculate_daily_totals df)) = rs /\
  rows (snd (find_peak_hours df)) = rs.
Proof. repeat split. Qed.

(** In general the two views assign their column to whatever frame they
    are given. *)
Lemma views_frame_effect {arith : Arithmetic} (df : DataFrame) :
  snd (calculate_daily_totals df) =
    set_column "date" (map (fun r => date_of (timestamp r)) (rows df)) df /\
  snd (find_peak_hours df) =
    set_column "hour" (map (fun r => hour_of (timestamp r)) (rows df)) df /\
  snd (calculate_weekly_aggregates df) = df.
Proof. repeat split. Qed.

(* ------------------------------------------------------------------ *)
(** ** Weekly bins *)

Lemma week_end_closed_form (d : Z) : week_end d = (7 * ((d + 3) / 7) + 3)%Z.
Proof. unfold week_end. Z.div_mod_to_equations. lia. Qed.

Lemma week_end_sunday (d : Z) : (week_end d mod 7 = 3)%Z.
Proof. rewrite week_end_closed_form. Z.div_mod_to_equations. lia. Qed.

Lemma fold_min_spec (ws : list Z) :
  forall w,
    In (fold_left Z.min ws w) (w :: ws) /\
    (forall x, In x (w :: ws) -> (fold_left Z.min ws w <= x)%Z).
Proof.
  induction ws as [|y ws IH]; intro w; simpl.
  - split; [now left|]. intros x [<-|[]]. lia.
  - destruct (IH (Z.min w y)) as [Hin Hle]. split.
    + destruct Hin as [Hin|Hin]; [|auto].
      rewrite <- Hin. destruct (Z.min_spec w y) as [[_ ->]|[_ ->]]; auto.
    + intros x [<-|[<-|Hx]].
      * specialize (Hle (Z.min w y) (or_introl eq_refl)). lia.
      * specialize (Hle (Z.min w y) (or_introl eq_refl)). lia.
      * apply Hle. now right.
Qed.

Lemma fold_max_spec (ws : list Z) :
  forall w,
    In (fold_left Z.max ws w) (w :: ws) /\
    (forall x, In x (w :: ws) -> (x <= fold_left Z.max ws w)%Z).
Proof.
  induction ws as [|y ws IH]; intro w; simpl.
  - split; [now left|]. intros x [<-|[]]. lia.
  - destruct (IH (Z.max w y)) as [Hin Hle]. split.
    + destruct Hin as [Hin|Hin]; [|auto].
      rewrite <- Hin. destruct (Z.max_spec w y) as [[_ ->]|[_ ->]]; auto.
    + intros x [<-|[<-|Hx]].
      * specialize (Hle (Z.max w y) (or_introl eq_refl)). lia.
      * specialize (Hle (Z.max w y) (or_introl eq_refl)). lia.
      * apply Hle. now right.
Qed.

Lemma filter_none {A : Type} (p : A -> bool) (l : list A) :
  (forall x, In x l -> p x = false) -> filter p l = [].
Proof.
  induction l as [|a l IH]; intro H; simpl; [reflexivity|].
  rewrite (H a) by now left. apply IH. intros x Hx. apply H. now right.
Qed.

Lemma filter_singleton {A : Type} (p : A -> bool) (l : list A) (a : A) :
  NoDup l -> In a l ->
  (forall x, In x l -> p x = true -> x = a) -> p a = true ->
  filter p l = [a].
Proof.
  induction 1 as [|y l Hy Hnd IH]; simpl; [intros []|].
  intros [->|Ha] Hp Hpa.
  - rewrite Hpa. f_equal. apply filter_none. intros x Hx.
    destruct (p x) eqn:E; [|reflexivity].
    exfalso. apply Hy. rewrite <- (Hp x); auto.
  - destruct (p y) eqn:E.
    + exfalso. apply Hy. rewrite (Hp y); auto.
    + apply IH; auto.
Qed.

Lemma filter_map_comm {A B : Type} (g : A -> B) (q : B -> bool) (l : list A) :
  filter q (map g l) = map g (filter (fun x => q (g x)) l).
Proof.
  induction l as [|a l IH]; simpl; [reflexivity|].
  destruct (q (g a)); simpl; now rewrite IH.
Qed.

Lemma row_week_le_closing (r : Row) : (row_week r <= closing_week r)%Z.
Proof. unfold closing_week. destruct (ends_a_sunday (timestamp r)); lia. Qed.

Lemma week_span (r0 : Row) (rest : list Row) (r : Row) :
  In r (r0 :: rest) ->
  (first_week r0 rest <= row_week r <= last_week r0 rest)%Z.
Proof.
  intro Hr.
  destruct (fold_min_spec (map row_week rest) (row_week r0)) as [_ Hle].
  destruct (fold_max_spec (map closing_week rest) (closing_week r0)) as [_ Hge].
  unfold first_week, last_week. split.
  - apply Hle. change (In (row_week r) (map row_week (r0 :: rest))). now apply in_map.
  - etransitivity; [apply row_week_le_closing|].
    apply Hge. change (In (closing_week r) (map closing_week (r0 :: rest))). now apply in_map.
Qed.

Lemma week_span_attained (r0 : Row) (rest : list Row) :
  exists r1 r2,
    In r1 (r0 :: rest) /\ In r2 (r0 :: rest) /\
    row_week r1 = first_week r0 rest /\
    closing_week r2 = last_week r0 rest.
Proof.
  destruct (fold_min_spec (map row_week rest) (row_week r0)) as [Hmin _].
  destruct (fold_max_spec (map closing_week rest) (closing_week r0)) as [Hmax _].
  change (row_week r0 :: map row_week rest) with (map row_week (r0 :: rest)) in Hmin.
  change (closing_week r0 :: map closing_week rest)
    with (map closing_week (r0 :: rest)) in Hmax.
  apply in_map_iff in Hmin, Hmax.
  destruct Hmin as [r1 [H1 Hr1]]. destruct Hmax as [r2 [H2 Hr2]].
  exists r1, r2. auto.
Qed.

Lemma resample_W_bin (r0 : Row) (rest : list Row) (w : Z) :
  let first := first_week r0 rest in
  let last := last_week r0 rest in
  filter (fun bin => Z.eqb (fst bin) w) (resample_W (r0 :: rest)) =
  if ((first <=? w) && (w <=? last) && (w mod 7 =? 3))%Z
  then [(w, filter (fun r => Z.eqb (row_week r) w) (r0 :: rest))]
  else [].
Proof.
  intros first last.
  unfold resample_W. fold first. fold last.
  rewrite filter_map_comm. cbn [fst].
  assert (Hfirst : (first mod 7 = 3)%Z).
  { destruct (week_span_attained r0 rest) as (r1 & _ & _ & _ & Hr & _).
    unfold first. rewrite <- Hr. apply week_end_sunday. }
  assert (Hspan : (first <= last)%Z).
  { pose proof (week_span r0 rest r0 (or_introl eq_refl)). unfold first, last. lia. }
  clearbody first last.
  destruct ((first <=? w) && (w <=? last) && (w mod 7 =? 3))%Z eqn:E.
  - apply andb_true_iff in E. destruct E as [E E3].
    apply andb_true_iff in E. destruct E as [E1 E2].
    apply Z.leb_le in E1, E2. apply Z.eqb_eq in E3.
    assert (Hw : (first + 7 * ((w - first) / 7) = w)%Z)
      by (revert Hfirst E3; Z.div_mod_to_equations; lia).
    assert (Hq : (0 <= (w - first) / 7 <= (last - first) / 7)%Z)
      by (revert Hfirst E3; Z.div_mod_to_equations; lia).
    rewrite (filter_singleton _ _ (Z.to_nat ((w - first) / 7))).
    + cbn [map]. rewrite Z2Nat.id by lia. rewrite Hw. reflexivity.
    + apply seq_NoDup.
    + apply in_seq. remember ((last - first) / 7)%Z as q.
      remember ((w - first) / 7)%Z as q'. lia.
    + intros i Hi Hiw. apply Z.eqb_eq in Hiw. subst w.
      replace ((first + 7 * Z.of_nat i - first) / 7)%Z with (Z.of_nat i)
        by (Z.div_mod_to_equations; lia).
      now rewrite Nat2Z.id.
    + apply Z.eqb_eq. rewrite Z2Nat.id by lia. exact Hw.
  - rewrite filter_none; [reflexivity|].
    intros i Hi. apply in_seq in Hi. apply Z.eqb_neq. intro Hw. subst w.
    assert (Hq : (0 <= (last - first) / 7)%Z) by (Z.div_mod_to_equations; lia).
    assert (Hn : (Z.of_nat i <= (last - first) / 7)%Z).
    { remember ((last - first) / 7)%Z as q. lia. }
    assert (E' : ((first <=? first + 7 * Z.of_nat i) &&
                  (first + 7 * Z.of_nat i <=? last) &&
                  ((first + 7 * Z.of_nat i) mod 7 =? 3))%Z = true).
    { apply andb_true_iff. split; [apply andb_true_iff; split|].
      - apply Z.leb_le. lia.
      - apply Z.leb_le. revert Hn. Z.div_mod_to_equations. lia.
      - apply Z.eqb_eq. revert Hfirst. Z.div_mod_to_equations. lia. }
    congruence.
Qed.

Lemma filter_flat_map_key {B : Type} (F : string -> list B) (key : B -> string)
      (q : B -> bool) (ks : list string) (b : string) :
  (forall k x, In x (F k) -> key x = k) ->
  NoDup ks ->
  filter (fun x => String.eqb (key x) b && q x) (flat_map F ks) =
  if existsb (String.eqb b) ks then filter q (F b) else [].
Proof.
  intros Hkey. induction 1 as [|k ks Hk Hnd IH]; simpl; [reflexivity|].
  rewrite filter_app, IH.
  destruct (String.eqb_spec b k) as [->|Hne]; simpl.
  - destruct (existsb (String.eqb k) ks) eqn:E.
    + exfalso. apply Hk. apply existsb_exists in E. destruct E as [x [Hx Hxe]].
      apply String.eqb_eq in Hxe. now subst.
    + rewrite app_nil_r. apply filter_ext_in. intros x Hx.
      now rewrite (Hkey k x Hx), String.eqb_refl.
  - rewrite filter_none; [reflexivity|].
    intros x Hx. rewrite (Hkey k x Hx).
    destruct (String.eqb_spec k b); [congruence|reflexivity].
Qed.

Section WeeklyBuckets.
Context {arith : Arithmetic}.
Variable df : DataFrame.
Variable b : string.
Variable w : Z.

(** The rows of entity [b], and those of them in the week that ends on
    day [w]. *)
Definition entity_rows : list Row := filter (in_building b) (rows df).
Definition bucket_rows : list Row :=
  filter (fun r => Z.eqb (row_week r) w) entity_rows.

(** The rows of the weekly view for entity [b] and the week ending on
    day [w]. *)
Definition weekly_rows : list WeeklyRow :=
  filter (fun x => String.eqb (w_building x) b && Z.eqb (w_timestamp x) (w * NS_PER_DAY))
         (fst (calculate_weekly_aggregates df)).

(** [w] lies strictly between two weeks in which [b] has rows. *)
Definition between_two_weeks : Prop :=
  exists r1 r2,
    In r1 entity_rows /\ In r2 entity_rows /\ (row_week r1 < w < row_week r2)%Z.

Definition weekly_row_of (members : list Row) : WeeklyRow :=
  let v := map kwh members in
  mkWeeklyRow b (w * NS_PER_DAY) (pd_sum v) (pd_mean v) (pd_max v) (pd_min v).

Lemma weekly_rows_spec :
  weekly_rows =
  match entity_rows with
  | [] => []
  | r0 :: group =>
      if ((first_week r0 group <=? w) &&
          (w <=? last_week r0 group) && (w mod 7 =? 3))%Z
      then [weekly_row_of bucket_rows]
      else []
  end.
Proof.
  unfold weekly_rows, calculate_weekly_aggregates. cbn [fst].
  rewrite (filter_flat_map_key _ w_building).
  - destruct (existsb (String.eqb b) _) eqn:E.
    + rewrite filter_map_comm. cbn [w_timestamp].
      rewrite (filter_ext _ (fun bin => Z.eqb (fst bin) w)).
      2:{ intro bin. unfold NS_PER_DAY.
          destruct (Z.eqb_spec (fst bin) w) as [->|Hne]; [apply Z.eqb_refl|].
          apply Z.eqb_neq. lia. }
      fold entity_rows. unfold bucket_rows.
      destruct entity_rows as [|r0 group]; [reflexivity|].
      rewrite resample_W_bin.
      destruct (_ && _ && _)%bool; reflexivity.
    + destruct entity_rows as [|r0 group] eqn:Eg; [reflexivity|exfalso].
      assert (Hr : In r0 entity_rows) by (rewrite Eg; now left).
      apply filter_In in Hr. destruct Hr as [Hr Hb].
      apply String.eqb_eq in Hb.
      assert (Hin : In b (group_keys String.eqb String.leb (map building (rows df)))).
      { apply (group_keys_In _ _ string_eqb_spec). rewrite <- Hb. now apply in_map. }
      assert (E' : existsb (String.eqb b)
                     (group_keys String.eqb String.leb (map building (rows df))) = true).
      { apply existsb_exists. exists b. split; [exact Hin|apply String.eqb_refl]. }
      congruence.
  - intros k x Hx. apply in_map_iff in Hx. now destruct Hx as [bin [<- _]].
  - apply group_keys_NoDup, string_eqb_spec.
Qed.

(** C6 (amended): for an entity and a calendar week, the weekly view has
    exactly one row when the entity has rows in that week, carrying their
    sum, mean, maximum and minimum; it also has one row, with total 0 and
    null mean, maximum and minimum, for a week without rows of the entity
    that lies strictly between two weeks in which the entity has rows;
    and, when no row of the entity sits on the last nanosecond of a
    Sunday, it has no row for any other week. *)
Theorem weekly_view_fills_inner_weeks :
  (bucket_rows <> [] -> weekly_rows = [weekly_row_of bucket_rows]) /\
  (bucket_rows = [] -> between_two_weeks -> (w mod 7 = 3)%Z ->
   weekly_rows = [mkWeeklyRow b (w * NS_PER_DAY) 0 None None None]) /\
  (bucket_rows = [] ->
   (forall r, In r entity_rows -> ends_a_sunday (timestamp r) = false) ->
   ~ between_two_weeks \/ (w mod 7 <> 3)%Z ->
   weekly_rows = []).
Proof.
  rewrite weekly_rows_spec. unfold between_two_weeks, bucket_rows.
  destruct entity_rows as [|r0 group] eqn:Eg.
  - split; [|split].
    + intro H. now contradiction H.
    + intros _ (r1 & r2 & [] & _).
    + reflexivity.
  - split; [|split].
    + intro Hne.
      destruct (filter _ (r0 :: group)) as [|r l] eqn:Ef; [congruence|].
      assert (Hr : In r (filter (fun r => Z.eqb (row_week r) w) (r0 :: group)))
        by (rewrite Ef; now left).
      apply filter_In in Hr. destruct Hr as [Hr Hw]. apply Z.eqb_eq in Hw.
      pose proof (week_span r0 group r Hr) as Hspan.
      pose proof (week_end_sunday (date_of (timestamp r))) as Hsun.
      fold (row_week r) in Hsun. rewrite Hw in Hspan, Hsun.
      replace (_ && _ && _)%bool with true; [reflexivity|].
      symmetry. rewrite !andb_true_iff, !Z.leb_le, Z.eqb_eq. lia.
    + intros Hempty (r1 & r2 & H1 & H2 & Hlt) Hsun.
      pose proof (week_span r0 group r1 H1). pose proof (week_span r0 group r2 H2).
      replace (_ && _ && _)%bool with true.
      * unfold weekly_row_of. now rewrite Hempty.
      * symmetry. rewrite !andb_true_iff, !Z.leb_le, Z.eqb_eq. lia.
    + intros Hempty Hedge Hno.
      destruct (_ && _ && _)%bool eqn:E; [exfalso|reflexivity].
      rewrite !andb_true_iff, !Z.leb_le, Z.eqb_eq in E. destruct E as [[E1 E2] E3].
      destruct Hno as [Hno|Hno]; [|contradiction].
      destruct (week_span_attained r0 group) as (r1 & r2 & H1 & H2 & Hf & Hl).
      assert (Hl' : row_week r2 = last_week r0 group).
      { rewrite <- Hl. unfold closing_week. now rewrite (Hedge r2 H2). }
      assert (Hout : forall r, In r (r0 :: group) -> row_week r <> w).
      { intros r Hr Hw.
        assert (Hin : In r (filter (fun r => Z.eqb (row_week r) w) (r0 :: group)))
          by (apply filter_In; split; [exact Hr|now apply Z.eqb_eq]).
        rewrite Hempty in Hin. destruct Hin. }
      apply Hno. exists r1, r2. repeat split; auto.
      * pose proof (Hout r1 H1). lia.
      * pose proof (Hout r2 H2). lia.
Qed.
End WeeklyBuckets.

Definition gap_dataset : DataFrame :=
  mkDataFrame
    [mkRow 1704103200000000000 10 "Library";
     mkRow 1705312800000000000 30 "Library"]
    [].

(** C6, as stated, fails: with rows on 2024-01-01 and 2024-01-15 only, the
    weekly view has a row for the week ending 2024-01-14 (day 19736), in
    which the entity has no row; it carries total 0 and null statistics. *)
Lemma weekly_view_emits_empty_week :
  bucket_rows gap_dataset "Library" 19736 = [] /\
  weekly_rows gap_dataset "Library" 19736 =
    [mkWeeklyRow "Library" 1705190400000000000 0 None None None].
Proof. split; reflexivity. Qed.

(* ------------------------------------------------------------------ *)
(** ** Order of the group keys *)

Lemma string_leb_trans (a b c : string) :
  String.leb a b = true -> String.leb b c = true -> String.leb a c = true.
Proof.
  unfold String.leb. intros Hab Hbc.
  destruct (String.compare a b) eqn:Eab; [|clear Hab|discriminate].
  - apply String_as_OT.cmp_eq in Eab. now subst.
  - destruct (String.compare b c) eqn:Ebc; [|clear Hbc|discriminate].
    + apply String_as_OT.cmp_eq in Ebc. subst. now rewrite Eab.
    + apply String_as_OT.cmp_lt in Eab, Ebc.
      pose proof (String_as_OT.lt_trans _ _ _ Eab Ebc) as Hac.
      apply String_as_OT.cmp_lt in Hac. unfold String_as_OT.cmp in Hac. now rewrite Hac.
Qed.

Definition building_hour_leb : string * Z -> string * Z -> bool :=
  pair_leb String.eqb String.leb Z.leb.

Lemma building_hour_leb_total (x y : string * Z) :
  building_hour_leb x y = false -> building_hour_leb y x = true.
Proof.
  destruct x as [b1 h1], y as [b2 h2]. unfold building_hour_leb, pair_leb. simpl.
  rewrite (String.eqb_sym b2 b1).
  destruct (String.eqb b1 b2).
  - intro H. apply Z.leb_gt in H. apply Z.leb_le. lia.
  - intro H. destruct (String.leb_total b1 b2); congruence.
Qed.

Lemma building_hour_leb_trans (x y z : string * Z) :
  building_hour_leb x y = true -> building_hour_leb y z = true ->
  building_hour_leb x z = true.
Proof.
  destruct x as [b1 h1], y as [b2 h2], z as [b3 h3].
  unfold building_hour_leb, pair_leb. simpl.
  destruct (String.eqb_spec b1 b2) as [->|H12];
    destruct (String.eqb_spec b2 b3) as [->|H23].
  - rewrite !Z.leb_le. lia.
  - intros _ H. exact H.
  - intros H _. destruct (String.eqb_spec b1 b3); [congruence|exact H].
  - intros Ha Hb. destruct (String.eqb_spec b1 b3) as [->|H13].
    + exfalso. apply H12. now apply String.leb_antisym.
    + eapply string_leb_trans; eauto.
Qed.

Lemma StronglySorted_strengthen {A : Type} (R R' : A -> A -> Prop) (l : list A) :
  (forall x y, In x l -> In y l -> R x y -> x <> y -> R' x y) ->
  NoDup l -> StronglySorted R l -> StronglySorted R' l.
Proof.
  intros H Hnd Hs. induction Hs as [|x l Hs IH Hx]; [constructor|].
  apply NoDup_cons_iff in Hnd. destruct Hnd as [Hnot Hnd].
  constructor.
  - apply IH; auto. intros a c Ha Hc. apply H; now right.
  - rewrite Forall_forall in *. intros y Hy. apply H; auto.
    + now left.
    + now right.
    + intro E. subst. contradiction.
Qed.

Lemma StronglySorted_map {A B : Type} (R : B -> B -> Prop) (f : A -> B) (l : list A) :
  StronglySorted (fun x y => R (f x) (f y)) l -> StronglySorted R (map f l).
Proof.
  induction 1 as [|x l Hs IH Hx]; simpl; constructor; auto.
  rewrite Forall_forall in *. intros y Hy.
  apply in_map_iff in Hy. destruct Hy as [a [<- Ha]]. auto.
Qed.

Lemma StronglySorted_after {A : Type} (R : A -> A -> Prop) (l1 l2 : list A) (x : A) :
  StronglySorted R (l1 ++ x :: l2) -> Forall (R x) l2.
Proof.
  induction l1 as [|a l1 IH]; simpl; intro H; inversion H; subst; auto.
Qed.

(** The keys of one building inside the sorted keys of
    [groupby(['building', 'hour'])]: hours strictly ascending. *)
Lemma building_hours_ascending (l : list (string * Z)) (b : string) :
  StronglySorted (fun k1 k2 => (snd k1 < snd k2)%Z)
    (filter (fun k => String.eqb (fst k) b)
            (group_keys (pair_eqb String.eqb Z.eqb) building_hour_leb l)).
Proof.
  apply (StronglySorted_strengthen (fun k1 k2 => building_hour_leb k1 k2 = true)).
  - intros [b1 h1] [b2 h2] H1 H2 Hle Hne.
    apply filter_In in H1, H2. destruct H1 as [_ H1], H2 as [_ H2].
    simpl in *. apply String.eqb_eq in H1, H2. subst b1 b2.
    unfold building_hour_leb, pair_leb in Hle. simpl in Hle.
    rewrite String.eqb_refl in Hle. apply Z.leb_le in Hle.
    assert (h1 <> h2) by congruence. lia.
  - apply NoDup_filter, group_keys_NoDup.
    apply pair_eqb_spec; [apply string_eqb_spec|apply Z.eqb_eq].
  - apply StronglySorted_filter. unfold group_keys.
    apply sort_by_sorted.
    + apply building_hour_leb_trans.
    + auto.
    + apply building_hour_leb_total.
Qed.

(* ------------------------------------------------------------------ *)
(** ** [idxmax] and [loc] *)

Lemma idxmax_loop_spec (l : list (nat * option Q)) :
  forall i v,
    exists l1 l2 u,
      (i, Some v) :: l = (l1 ++ (idxmax_loop (i, v) l, Some u) :: l2)%list /\
      v <= u /\
      (forall k x, In (k, Some x) l1 -> x < u) /\
      (forall k x, In (k, Some x) l2 -> x <= u).
Proof.
  induction l as [|[k [x|]] l IH]; intros i v; simpl.
  - exists [], [], v. repeat split; try (intros ? ? []). apply Qle_refl.
  - destruct (Qltb v x) eqn:E.
    + apply Qltb_lt in E.
      destruct (IH k x) as (l1 & l2 & u & Heq & Hvu & Hlt & Hle).
      exists ((i, Some v) :: l1), l2, u. simpl. rewrite <- Heq.
      split; [reflexivity|]. split; [|split; [|exact Hle]].
      * apply Qlt_le_weak. eapply Qlt_le_trans; eauto.
      * intros k' x' [Hin|Hin]; [|eauto].
        inversion Hin; subst. eapply Qlt_le_trans; eauto.
    + apply Qltb_ge in E.
      destruct (IH i v) as (l1 & l2 & u & Heq & Hvu & Hlt & Hle).
      destruct l1 as [|a l1]; simpl in Heq.
      * injection Heq as Hi Hv Hl.
        exists [], ((k, Some x) :: l2), u. simpl. rewrite <- Hi, <- Hv, <- Hl.
        split; [reflexivity|]. split; [apply Qle_refl|]. split; [intros ? ? []|].
        intros k' x' [Hin|Hin].
        -- inversion Hin; subst. exact E.
        -- subst. eauto.
      * injection Heq as Ha Hl.
        exists ((i, Some v) :: (k, Some x) :: l1), l2, u. simpl. rewrite <- Hl.
        split; [reflexivity|]. split; [exact Hvu|]. split; [|exact Hle].
        intros k' x' [Hin|[Hin|Hin]].
        -- apply (Hlt k'). left. now rewrite <- Ha.
        -- inversion Hin; subst. eapply Qle_lt_trans; [exact E|].
           apply (Hlt i). now left.
        -- apply (Hlt k'). now right.
  - destruct (IH i v) as (l1 & l2 & u & Heq & Hvu & Hlt & Hle).
    destruct l1 as [|a l1]; simpl in Heq.
    + injection Heq as Hi Hv Hl.
      exists [], ((k, None) :: l2), u. simpl. rewrite <- Hi, <- Hv, <- Hl.
      split; [reflexivity|]. split; [apply Qle_refl|]. split; [intros ? ? []|].
      intros k' x' [Hin|Hin]; [discriminate|subst; eauto].
    + injection Heq as Ha Hl.
      exists ((i, Some v) :: (k, None) :: l1), l2, u. simpl. rewrite <- Hl.
      split; [reflexivity|]. split; [exact Hvu|]. split; [|exact Hle].
      intros k' x' [Hin|[Hin|Hin]].
      * apply (Hlt k'). left. now rewrite <- Ha.
      * discriminate.
      * apply (Hlt k'). now right.
Qed.

(** [idxmax] returns the label of the first entry whose value is maximal:
    the values before it are strictly smaller, those after it are at most
    as large. *)
Lemma idxmax_Some (l : list (nat * option Q)) (j : nat) :
  idxmax l = Some j ->
  exists l1 l2 u,
    l = (l1 ++ (j, Some u) :: l2)%list /\
    (forall k x, In (k, Some x) l1 -> x < u) /\
    (forall k x, In (k, Some x) l2 -> x <= u).
Proof.
  induction l as [|[k [x|]] l IH]; simpl; intro H.
  - discriminate.
  - injection H as <-.
    destruct (idxmax_loop_spec l k x) as (l1 & l2 & u & Heq & _ & Hlt & Hle).
    exists l1, l2, u. auto.
  - destruct (IH H) as (l1 & l2 & u & Heq & Hlt & Hle).
    exists ((k, None) :: l1), l2, u. simpl. rewrite Heq. repeat split; auto.
    intros k' x' [E|E]; [discriminate|eauto].
Qed.

Lemma idxmax_None (l : list (nat * option Q)) :
  idxmax l = None -> forall k x, ~ In (k, Some x) l.
Proof.
  induction l as [|[k [x|]] l IH]; simpl; intros H k' x' Hin.
  - exact Hin.
  - discriminate.
  - destruct Hin as [E|Hin]; [discriminate|]. exact (IH H k' x' Hin).
Qed.

Lemma map_snd_combine_seq {A : Type} (l : list A) :
  forall start, map snd (combine (seq start (List.length l)) l) = l.
Proof.
  induction l as [|a l IH]; intro start; simpl; [reflexivity|]. now rewrite IH.
Qed.

Lemma map_fst_combine_seq {A : Type} (l : list A) :
  forall start, map fst (combine (seq start (List.length l)) l) = seq start (List.length l).
Proof.
  induction l as [|a l IH]; intro start; simpl; [reflexivity|]. now rewrite IH.
Qed.

Lemma NoDup_map_inj {A B : Type} (f : A -> B) (l : list A) (x y : A) :
  NoDup (map f l) -> In x l -> In y l -> f x = f y -> x = y.
Proof.
  induction l as [|a l IH]; simpl; [intros _ []|].
  intros Hnd Hx Hy E. apply NoDup_cons_iff in Hnd. destruct Hnd as [Hnot Hnd].
  destruct Hx as [->|Hx], Hy as [->|Hy]; auto.
  - exfalso. apply Hnot. rewrite E. now apply in_map.
  - exfalso. apply Hnot. rewrite <- E. now apply in_map.
Qed.

(** A label that names one row of the frame selects that row. *)
Lemma loc_one {A : Type} (frame : list (nat * A)) (i : nat) (a : A) :
  NoDup (map fst frame) -> In (i, a) frame -> loc frame [i] = [a].
Proof.
  intros Hnd Hin. unfold loc. simpl. rewrite app_nil_r.
  rewrite (filter_singleton _ _ (i, a)); auto.
  - now apply NoDup_map_inv in Hnd.
  - intros x Hx E. apply Nat.eqb_eq in E.
    apply (NoDup_map_inj fst frame); auto.
  - apply Nat.eqb_refl.
Qed.

Lemma loc_flat_map {A K : Type} (frame : list (nat * A)) (g : K -> list nat) (ks : list K) :
  loc frame (flat_map g ks) = flat_map (fun k => loc frame (g k)) ks.
Proof.
  unfold loc. induction ks as [|k ks IH]; simpl; [reflexivity|].
  now rewrite flat_map_app, IH.
Qed.

(* ------------------------------------------------------------------ *)
(** ** Peak hours *)

Definition label_value (ir : nat * PeakRow) : nat * option Q :=
  (fst ir, p_kwh (snd ir)).

Section PeakChoice.
Variable T : list PeakRow.

Definition indexed_table : list (nat * PeakRow) := combine (seq 0 (List.length T)) T.

Definition group_of (b : string) : list (nat * PeakRow) :=
  filter (fun ir => String.eqb (p_building (snd ir)) b) indexed_table.

(** The rows that [loc] selects for the group of [b]. *)
Definition choice (b : string) : list PeakRow :=
  loc indexed_table
      (match idxmax (map label_value (group_of b)) with
       | Some i => [i]
       | None => []
       end).

Lemma group_of_rows (b : string) :
  map snd (group_of b) = filter (fun p => String.eqb (p_building p) b) T.
Proof.
  unfold group_of, indexed_table.
  rewrite <- (filter_map_comm snd (fun p => String.eqb (p_building p) b)).
  now rewrite map_snd_combine_seq.
Qed.

Lemma choice_spec (b : string) :
  match idxmax (map label_value (group_of b)) with
  | None =>
      choice b = [] /\
      forall p, In p T -> p_building p = b -> p_kwh p = None
  | Some _ =>
      exists before p after u,
        filter (fun p => String.eqb (p_building p) b) T = (before ++ p :: after)%list /\
        choice b = [p] /\
        p_kwh p = Some u /\
        (forall q x, In q before -> p_kwh q = Some x -> x < u) /\
        (forall q x, In q after -> p_kwh q = Some x -> x <= u)
  end.
Proof.
  unfold choice. destruct (idxmax (map label_value (group_of b))) as [j|] eqn:E.
  - apply idxmax_Some in E. destruct E as (l1 & l2 & u & Heq & Hlt & Hle).
    apply map_eq_app in Heq. destruct Heq as (I1 & I2' & Hg & H1 & H2).
    apply map_eq_cons in H2. destruct H2 as (ir & I2 & -> & Hir & H2).
    destruct ir as [i p]. unfold label_value in Hir. simpl in Hir.
    injection Hir as -> Hp.
    exists (map snd I1), p, (map snd I2), u. repeat split.
    + rewrite <- group_of_rows, Hg, map_app. reflexivity.
    + apply loc_one.
      * unfold indexed_table. rewrite map_fst_combine_seq. apply seq_NoDup.
      * assert (Hin : In (j, p) (group_of b)) by (rewrite Hg; apply in_elt).
        apply filter_In in Hin. tauto.
    + exact Hp.
    + intros q x Hq Hx. apply in_map_iff in Hq. destruct Hq as [[i' q'] [<- Hq]].
      apply (Hlt i'). rewrite <- H1.
      apply in_map_iff. exists (i', q'). split; [|exact Hq].
      unfold label_value. simpl in *. now rewrite Hx.
    + intros q x Hq Hx. apply in_map_iff in Hq. destruct Hq as [[i' q'] [<- Hq]].
      apply (Hle i'). rewrite <- H2.
      apply in_map_iff. exists (i', q'). split; [|exact Hq].
      unfold label_value. simpl in *. now rewrite Hx.
  - split; [reflexivity|]. intros p Hp Hb.
    destruct (p_kwh p) as [x|] eqn:Ex; [exfalso|reflexivity].
    assert (Hin : In p (map snd (group_of b))).
    { rewrite group_of_rows. apply filter_In. split; [exact Hp|].
      now apply String.eqb_eq. }
    apply in_map_iff in Hin. destruct Hin as [[i q] [Hq Hin]]. simpl in Hq. subst q.
    apply (idxmax_None _ E i x).
    apply in_map_iff. exists (i, p). split; [|exact Hin].
    unfold label_value. simpl. now rewrite Ex.
Qed.

Lemma choice_building (b : string) (x : PeakRow) :
  In x (choice b) -> p_building x = b.
Proof.
  pose proof (choice_spec b) as H.
  destruct (idxmax (map label_value (group_of b))).
  - destruct H as (before & p & after & u & Hf & -> & _).
    intros [<-|[]].
    assert (Hin : In p (filter (fun p => String.eqb (p_building p) b) T))
      by (rewrite Hf; apply in_elt).
    apply filter_In in Hin. now apply String.eqb_eq.
  - destruct H as [-> _]. intros [].
Qed.
End PeakChoice.

Definition hour_key (r : Row) : string * Z := (building r, hour_of (timestamp r)).

Section PeakHours.
Context {arith : Arithmetic}.
Variable df : DataFrame.

Definition hour_keys : list (string * Z) :=
  group_keys (pair_eqb String.eqb Z.eqb) building_hour_leb (map hour_key (rows df)).

(** The mean [kwh] of entity [b] at hour [h]; null when [b] has no row
    at that hour. *)
Definition hourly_mean (b : string) (h : Z) : option Q :=
  pd_mean (map kwh (filter (fun r => String.eqb (building r) b &&
                                     Z.eqb (hour_of (timestamp r)) h) (rows df))).

Definition has_hour (b : string) (h : Z) : Prop :=
  exists r, In r (rows df) /\ building r = b /\ hour_of (timestamp r) = h.

Definition peak_row (k : string * Z) : PeakRow :=
  mkPeakRow (fst k) (snd k) (hourly_mean (fst k) (snd k)).

Definition peak_table : list PeakRow := map peak_row hour_keys.

Lemma find_peak_hours_unfold :
  fst (find_peak_hours df) =
  flat_map (choice peak_table)
           (group_keys String.eqb String.leb (map p_building peak_table)).
Proof.
  unfold find_peak_hours. cbn [fst]. rewrite loc_flat_map. reflexivity.
Qed.

Lemma hour_keys_In (b : string) (h : Z) : In (b, h) hour_keys <-> has_hour b h.
Proof.
  unfold hour_keys, has_hour.
  rewrite group_keys_In
    by (apply pair_eqb_spec; [apply string_eqb_spec|apply Z.eqb_eq]).
  rewrite in_map_iff. unfold hour_key. split.
  - intros [r [E Hr]]. inversion E. eauto.
  - intros [r [Hr [<- <-]]]. eauto.
Qed.

Lemma hourly_mean_Some (b : string) (h : Z) :
  has_hour b h -> exists m, hourly_mean b h = Some m.
Proof.
  intros [r [Hr [Hb Hh]]]. unfold hourly_mean, pd_mean.
  destruct (map kwh _) eqn:E; [exfalso|eauto].
  apply map_eq_nil in E.
  assert (Hin : In r (filter (fun r => String.eqb (building r) b &&
                                       Z.eqb (hour_of (timestamp r)) h) (rows df))).
  { apply filter_In. split; [exact Hr|].
    apply andb_true_iff. split; [now apply String.eqb_eq|now apply Z.eqb_eq]. }
  rewrite E in Hin. destruct Hin.
Qed.

Lemma peak_table_of_building (b : string) :
  filter (fun p => String.eqb (p_building p) b) peak_table =
  map peak_row (filter (fun k => String.eqb (fst k) b) hour_keys).
Proof. unfold peak_table. now rewrite filter_map_comm. Qed.

Lemma peak_table_hours_ascending (b : string) :
  StronglySorted (fun p q => (p_hour p < p_hour q)%Z)
    (filter (fun p => String.eqb (p_building p) b) peak_table).
Proof.
  rewrite peak_table_of_building. apply StronglySorted_map. simpl.
  apply building_hours_ascending.
Qed.

Lemma peak_table_In (b : string) (p : PeakRow) :
  In p (filter (fun p => String.eqb (p_building p) b) peak_table) <->
  exists h, has_hour b h /\ p = mkPeakRow b h (hourly_mean b h).
Proof.
  rewrite peak_table_of_building, in_map_iff. split.
  - intros [[b' h] [<- Hk]]. apply filter_In in Hk. destruct Hk as [Hk Hb].
    simpl in Hb. apply String.eqb_eq in Hb. subst b'.
    exists h. split; [now apply hour_keys_In|reflexivity].
  - intros [h [Hh ->]]. exists (b, h). split; [reflexivity|].
    apply filter_In. split; [now apply hour_keys_In|apply String.eqb_refl].
Qed.

(** C5: for every entity of the dataset, [find_peak_hours] has exactly
    one row; its hour is an hour at which the entity has readings, its
    value is the mean [kwh] of the entity at that hour, no hour of the
    entity has a larger mean, and every hour of the entity with the same
    mean is the same or a later hour.  The row is thus determined by the
    hourly means alone. *)
Theorem find_peak_hours_lowest_tied_hour (b : string) :
  In b (map building (rows df)) ->
  exists h m,
    filter (fun p => String.eqb (p_building p) b) (fst (find_peak_hours df)) =
      [mkPeakRow b h (Some m)] /\
    has_hour b h /\
    hourly_mean b h = Some m /\
    forall h', has_hour b h' ->
               exists m', hourly_mean b h' = Some m' /\
                          m' <= m /\ (m' == m -> (h <= h')%Z).
Proof.
  intro Hb.
  assert (H0 : exists h0, has_hour b h0).
  { apply in_map_iff in Hb. destruct Hb as [r [E Hr]].
    exists (hour_of (timestamp r)), r. auto. }
  destruct H0 as [h0 Hh0].
  assert (Hkeys : existsb (String.eqb b)
            (group_keys String.eqb String.leb (map p_building peak_table)) = true).
  { apply existsb_exists. exists b. split; [|apply String.eqb_refl].
    apply (group_keys_In _ _ string_eqb_spec).
    apply in_map_iff. exists (peak_row (b, h0)). split; [reflexivity|].
    apply in_map. now apply hour_keys_In. }
  rewrite find_peak_hours_unfold.
  rewrite (filter_ext _ (fun p => String.eqb (p_building p) b && true))
    by (intro; now rewrite andb_true_r).
  rewrite (filter_flat_map_key (choice peak_table) p_building (fun _ => true)).
  2:{ intros k x. apply choice_building. }
  2:{ apply group_keys_NoDup, string_eqb_spec. }
  rewrite Hkeys.
  assert (Hall : forall l : list PeakRow, filter (fun _ => true) l = l).
  { induction l as [|a l IH]; simpl; [reflexivity|now rewrite IH]. }
  rewrite Hall. clear Hall.
  pose proof (choice_spec peak_table b) as Hc.
  pose proof (peak_table_hours_ascending b) as Hsorted.
  destruct (idxmax (map label_value (group_of peak_table b))).
  - destruct Hc as (before & p & after & u & Hf & -> & Hp & Hlt & Hle).
    assert (Hin : In p (filter (fun p => String.eqb (p_building p) b) peak_table))
      by (rewrite Hf; apply in_elt).
    apply peak_table_In in Hin. destruct Hin as [h [Hh ->]].
    simpl in Hp. exists h, u. rewrite Hp. repeat split; auto.
    intros h' Hh'.
    destruct (hourly_mean_Some b h' Hh') as [m' Hm'].
    exists m'. split; [exact Hm'|].
    assert (Hin' : In (mkPeakRow b h' (hourly_mean b h'))
                      (filter (fun p => String.eqb (p_building p) b) peak_table))
      by (apply peak_table_In; eauto).
    rewrite Hf in Hin', Hsorted.
    apply in_app_or in Hin'. destruct Hin' as [Hin'|[Hin'|Hin']].
    + pose proof (Hlt _ m' Hin' Hm') as Hs. split; [now apply Qlt_le_weak|].
      intro Heq. rewrite Heq in Hs. exfalso. exact (Qlt_irrefl _ Hs).
    + injection Hin' as Hhh _. subst h'.
      rewrite Hp in Hm'. injection Hm' as <-.
      split; [apply Qle_refl|]. intros _. lia.
    + split; [exact (Hle _ m' Hin' Hm')|]. intros _.
      apply StronglySorted_after in Hsorted.
      rewrite Forall_forall in Hsorted. specialize (Hsorted _ Hin').
      simpl in Hsorted. lia.
  - exfalso. destruct Hc as [_ Hnone].
    destruct (hourly_mean_Some b h0 Hh0) as [m0 Hm0].
    specialize (Hnone (mkPeakRow b h0 (hourly_mean b h0))).
    simpl in Hnone. rewrite Hm0 in Hnone.
    assert (Hin : In (mkPeakRow b h0 (Some m0))
                     (filter (fun p => String.eqb (p_building p) b) peak_table)).
    { apply peak_table_In. exists h0. rewrite Hm0. auto. }
    apply filter_In in Hin. destruct Hin as [Hin _].
    specialize (Hnone Hin eq_refl). discriminate.
Qed.
End PeakHours.


(** The description of the selected hour given by the theorem leaves no
    choice: two hours that both meet it are the same hour, whatever the
    order in which groups are visited. *)
Lemma peak_hour_determined {arith : Arithmetic} (df : DataFrame) (b : string) (h1 h2 : Z) (m1 m2 : Q) :
  has_hour df b h1 -> hourly_mean df b h1 = Some m1 ->
  has_hour df b h2 -> hourly_mean df b h2 = Some m2 ->
  (forall h', has_hour df b h' ->
              exists m', hourly_mean df b h' = Some m' /\ m' <= m1 /\ (m' == m1 -> (h1 <= h')%Z)) ->
  (forall h', has_hour df b h' ->
              exists m', hourly_mean df b h' = Some m' /\ m' <= m2 /\ (m' == m2 -> (h2 <= h')%Z)) ->
  h1 = h2.
Proof.
  intros Hh1 Hm1 Hh2 Hm2 P1 P2.
  destruct (P1 h2 Hh2) as (m & Em & Hle21 & Hord1). rewrite Hm2 in Em. injection Em as <-.
  destruct (P2 h1 Hh1) as (m & Em & Hle12 & Hord2). rewrite Hm1 in Em. injection Em as <-.
  assert (Heq : m1 == m2) by (apply Qle_antisym; assumption).
  specialize (Hord1 (Qeq_sym _ _ Heq)). specialize (Hord2 Heq). lia.
Qed.

(** Entity A: mean 50 at hour 14 (readings 40 and 60) and mean 50 at hour
    20, less at hour 3. *)
Definition tied_hours_dataset : DataFrame :=
  mkDataFrame
    [mkRow 1704078000000000000 10 "A";
     mkRow 1704099600000000000 5 "B";
     mkRow 1704117600000000000 40 "A";
     mkRow 1704139200000000000 50 "A";
     mkRow 1704204000000000000 60 "A"]
    [].

Example tied_hours_peak :
  fst (find_peak_hours tied_hours_dataset) =
  [mkPeakRow "A" 14 (Some 50); mkPeakRow "B" 9 (Some 5)].
Proof. reflexivity. Qed.

Lemma find_peak_hours_lowest_tied_hour_witness :
  exists h m,
    filter (fun p => String.eqb (p_building p) "A") (fst (find_peak_hours tied_hours_dataset)) =
      [mkPeakRow "A" h (Some m)] /\
    has_hour tied_hours_dataset "A" h /\
    hourly_mean tied_hours_dataset "A" h = Some m /\
    forall h', has_hour tied_hours_dataset "A" h' ->
               exists m', hourly_mean tied_hours_dataset "A" h' = Some m' /\
                          m' <= m /\ (m' == m -> (h <= h')%Z).
Proof.
  apply (find_peak_hours_lowest_tied_hour tied_hours_dataset "A").
  simpl. auto.
Defined.

(** Readings 10, 20 and 6 of one entity: total 36, mean 12, maximum 20,
    minimum 6, three readings. *)
Example summary_of_three_readings :
  building_wise_summary
    (mkDataFrame [mkRow 0 10 "Lab"; mkRow 3600000000000 20 "Lab"; mkRow 7200000000000 6 "Lab"] []) =
  [mkSummaryRow "Lab" 36 (Some 12) (Some 20) (Some 6) 3].
Proof. reflexivity. Qed.

Example gap_dataset_weekly :
  map (fun x => (w_timestamp x, w_total x, w_mean x))
      (fst (calculate_weekly_aggregates gap_dataset)) =
  [(1704585600000000000%Z, 10, Some 10);
   (1705190400000000000%Z, 0, None);
   (1705795200000000000%Z, 30, Some 30)].
Proof. reflexivity. Qed.

Example negative_source_dataset :
  @ingest_data pandas_stable [negative_source] =
  (Some (mkDataFrame [mkRow 1704103200000000000 (-5) "Library";
                      mkRow 1704106800000000000 12 "Library"] []),
   []).
Proof. reflexivity. Qed.

(** Two tied rows are within the insertion pass and keep their order. *)
Example tie_sources_in_order :
  map building (dataset_rows (@ingest_data pandas_quicksort tie_sources)) = ["Admin"; "Library"].
Proof. reflexivity. Qed.

Example tied_readings_reordered :
  map kwh (@merged_rows pandas_quicksort [tied_readings_source]) =
    map inject_Z [1; 2; 3; 4; 5; 6; 7; 8; 9; 10; 11; 12; 13; 14; 15; 16; 17; 18]%Z /\
  map kwh (dataset_rows (@ingest_data pandas_quicksort [tied_readings_source])) <>
    map inject_Z [1; 2; 3; 4; 5; 6; 7; 8; 9; 10; 11; 12; 13; 14; 15; 16; 17; 18]%Z.
Proof. split; [reflexivity|vm_compute; discriminate]. Qed.


(* ================================================================== *)
(** * Further properties of the code *)

(* ------------------------------------------------------------------ *)
(** ** Ingestion: the failure list, order of the sources, isolation *)

Lemma Permutation_concat_map {A B : Type} (f : A -> list B) (l l' : list A) :
  Permutation l l' -> Permutation (List.concat (map f l)) (List.concat (map f l')).
Proof.
  induction 1 as [|x l l' H IH|x y l|l l' l'' H1 IH1 H2 IH2]; simpl.
  - constructor.
  - now apply Permutation_app_head.
  - rewrite !app_assoc. apply Permutation_app_tail, Permutation_app_comm.
  - now transitivity (List.concat (map f l')).
Qed.

(** The failure list holds the names of the sources that did not load,
    once each, in the order in which the sources were visited; a source
    does not load when it cannot be read, lacks a required column, or the
    conversion of its timestamps raises; every source either adds a frame
    or a name. *)
Theorem failure_list_in_visiting_order {pandas : Pandas} (csv_files : list CsvFile) :
  snd (ingest_data csv_files) =
    map file_name (filter (fun f => negb (loads f)) csv_files) /\
  (forall f, loads f = false <-> fails f) /\
  (List.length (snd (ingest_data csv_files)) +
   List.length (filter loads csv_files) = List.length csv_files)%nat.
Proof.
  split; [apply ingest_data_failed|]. split; [apply loads_false_iff|].
  rewrite ingest_data_failed, length_map.
  induction csv_files as [|f l IH]; simpl; [reflexivity|].
  destruct (loads f); simpl; lia.
Qed.

(** No row is lost after validation: a row of a source that loads, whose
    timestamp came out of the conversion as a timestamp and whose [kwh] is
    a number or parses as one, is in the dataset with these two values and
    the stem of its file, whatever the sign or the size of the value. *)
Theorem parsed_source_rows_are_kept {pandas : Pandas}
        (csv_files : list CsvFile) (f : CsvFile) (cols : list string)
        (data : list (list cell)) (ts : list (option Z)) (i : nat) (raw : list cell)
        (t : Z) (k : Q) :
  In f csv_files ->
  read_csv f = Table cols data ->
  has_column "timestamp" cols = true ->
  has_column "kwh" cols = true ->
  to_datetime (map (get_cell cols "timestamp") data) = Some ts ->
  nth_error data i = Some raw ->
  nth_error ts i = Some (Some t) ->
  to_numeric (get_cell cols "kwh" raw) = Some k ->
  In (mkRow t k (stem f)) (dataset_rows (ingest_data csv_files)).
Proof.
  intros Hf E Ht Hk Hts Hraw Hti Hnum.
  apply dataset_rows_In, merged_rows_In. exists f.
  assert (Hv : loads f = true).
  { destruct (loads f) eqn:Hl; [reflexivity|].
    apply loads_false_iff in Hl.
    destruct Hl as [H|[(c & d & H & [H'|H'])|(c & d & H & _ & _ & H')]];
      try congruence; rewrite E in H; injection H as <- <-; congruence. }
  split; [exact Hf|]. split; [exact Hv|].
  apply (loaded_rows_In f _ Hv). exists cols, data, ts, i, raw. auto 10.
Qed.

Lemma parsed_source_rows_are_kept_witness :
  In (mkRow 1704103200000000000 (-5) "Library")
     (dataset_rows (@ingest_data pandas_stable [negative_source])).
Proof.
  apply (@parsed_source_rows_are_kept pandas_stable [negative_source] negative_source
           ["timestamp"; "kwh"]
           [[CStr "2024-01-01 10:00:00"; CNum (-5)];
            [CStr "2024-01-01 11:00:00"; CNum 12]]
           [Some 1704103200000000000%Z; Some 1704106800000000000%Z]
           0 [CStr "2024-01-01 10:00:00"; CNum (-5)]);
    try reflexivity.
  now left.
Defined.

(** Visiting the same sources in another order gives the same rows (the
    datasets are permutations of each other), the same failed names, and
    a dataset in the one case exactly when in the other. *)
Theorem ingest_data_order_of_sources {pandas : Pandas} (csv_files csv_files' : list CsvFile) :
  Permutation csv_files csv_files' ->
  Permutation (dataset_rows (ingest_data csv_files)) (dataset_rows (ingest_data csv_files')) /\
  Permutation (snd (ingest_data csv_files)) (snd (ingest_data csv_files')) /\
  (fst (ingest_data csv_files) = None <-> fst (ingest_data csv_files') = None).
Proof.
  intro Hp. split; [|split].
  - rewrite <- !dataset_rows_perm. unfold merged_rows.
    now apply Permutation_concat_map, Permutation_filter'.
  - rewrite !ingest_data_failed. now apply Permutation_map, Permutation_filter'.
  - rewrite !ingest_data_dataset.
    pose proof (Permutation_filter' loads _ _ Hp) as Hf.
    destruct (filter loads csv_files) as [|a l];
      destruct (filter loads csv_files') as [|a' l'].
    + split; reflexivity.
    + apply Permutation_nil in Hf. discriminate.
    + symmetry in Hf. apply Permutation_nil in Hf. discriminate.
    + split; discriminate.
Qed.

Lemma ingest_data_order_of_sources_witness :
  Permutation (dataset_rows (@ingest_data pandas_stable scenario_sources))
              (dataset_rows (@ingest_data pandas_stable (rev scenario_sources))) /\
  Permutation (snd (@ingest_data pandas_stable scenario_sources))
              (snd (@ingest_data pandas_stable (rev scenario_sources))) /\
  (fst (@ingest_data pandas_stable scenario_sources) = None <->
   fst (@ingest_data pandas_stable (rev scenario_sources)) = None).
Proof.
  apply (@ingest_data_order_of_sources pandas_stable scenario_sources (rev scenario_sources)).
  apply Permutation_rev.
Defined.

(** A source that cannot be read, or that lacks a required column, only
    adds its name to the failure list: the dataset is the one the other
    sources give without it, and the names of the others keep their
    places. *)
Theorem rejected_source_is_isolated {pandas : Pandas}
        (before after : list CsvFile) (f : CsvFile) :
  read_csv f = ReadFails \/ missing_required_column f ->
  fst (ingest_data (before ++ f :: after)) = fst (ingest_data (before ++ after)) /\
  snd (ingest_data (before ++ f :: after)) =
    (snd (ingest_data before) ++ file_name f :: snd (ingest_data after))%list.
Proof.
  intro Hbad.
  assert (Hv : loads f = false).
  { apply loads_false_iff. destruct Hbad as [H|H]; [now left|right; now left]. }
  split.
  - rewrite !ingest_data_dataset. unfold merged_rows.
    rewrite !filter_app. simpl. now rewrite Hv.
  - rewrite !ingest_data_failed, filter_app, map_app. simpl. now rewrite Hv.
Qed.

Definition unreadable_source : CsvFile := mkCsvFile "Hostel.csv" ReadFails.

Lemma rejected_source_is_isolated_witness :
  fst (@ingest_data pandas_stable ([negative_source] ++ unreadable_source :: tie_sources)) =
    fst (@ingest_data pandas_stable ([negative_source] ++ tie_sources)) /\
  snd (@ingest_data pandas_stable ([negative_source] ++ unreadable_source :: tie_sources)) =
    (snd (@ingest_data pandas_stable [negative_source]) ++
     file_name unreadable_source :: snd (@ingest_data pandas_stable tie_sources))%list.
Proof.
  apply (@rejected_source_is_isolated pandas_stable [negative_source] tie_sources unreadable_source).
  left. reflexivity.
Defined.

(* ------------------------------------------------------------------ *)
(** ** Counts over a partition by key *)

Section Partition.
Context {A K : Type} (key : A -> K) (eqb : K -> K -> bool).
Hypothesis eqb_spec : forall x y, eqb x y = true <-> x = y.

Lemma existsb_eqb_In (k : K) (ks : list K) : existsb (eqb k) ks = true <-> In k ks.
Proof.
  rewrite existsb_exists. split.
  - intros [x [Hx E]]. apply eqb_spec in E. now subst.
  - intro H. exists k. split; [exact H|now apply eqb_spec].
Qed.

Lemma list_sum_pick (k0 : K) (ks : list K) :
  NoDup ks ->
  list_sum (map (fun k => if eqb k0 k then 1%nat else 0%nat) ks) =
  if existsb (eqb k0) ks then 1%nat else 0%nat.
Proof.
  induction 1 as [|k ks Hk Hnd IH]; simpl; [reflexivity|].
  rewrite IH. destruct (eqb k0 k) eqn:E; simpl; [|reflexivity].
  apply eqb_spec in E. subst k0.
  destruct (existsb (eqb k) ks) eqn:E'; [|reflexivity].
  apply existsb_eqb_In in E'. contradiction.
Qed.

Lemma length_partition (ks : list K) (l : list A) :
  NoDup ks ->
  (forall x, In x l -> In (key x) ks) ->
  list_sum (map (fun k => List.length (filter (fun x => eqb (key x) k) l)) ks) =
  List.length l.
Proof.
  intros Hnd. induction l as [|a l IH]; intro Hin.
  - simpl. clear. induction ks as [|k ks IHk]; simpl; [reflexivity|exact IHk].
  - assert (E : existsb (eqb (key a)) ks = true)
      by (apply existsb_eqb_In, Hin; now left).
    assert (Hsplit :
              list_sum (map (fun k => List.length (filter (fun x => eqb (key x) k) (a :: l))) ks) =
              (list_sum (map (fun k => if eqb (key a) k then 1%nat else 0%nat) ks) +
               list_sum (map (fun k => List.length (filter (fun x => eqb (key x) k) l)) ks))%nat).
    { clear. induction ks as [|k ks IHk]; [reflexivity|].
      assert (Hc : forall x xs, list_sum (x :: xs) = (x + list_sum xs)%nat) by reflexivity.
      rewrite !map_cons, !Hc, IHk. cbn [filter].
      destruct (eqb (key a) k); simpl; lia. }
    rewrite Hsplit, (list_sum_pick (key a) ks Hnd), E, IH
      by (intros; apply Hin; now right).
    reflexivity.
Qed.
End Partition.

(* ------------------------------------------------------------------ *)
(** ** Daily totals *)

Definition day_key (r : Row) : Z * string := (date_of (timestamp r), building r).

Definition day_keys (df : DataFrame) : list (Z * string) :=
  group_keys (pair_eqb Z.eqb String.eqb) (pair_leb Z.eqb Z.leb String.leb)
             (map day_key (rows df)).

Definition daily_row {arith : Arithmetic} (df : DataFrame) (k : Z * string) : DailyRow :=
  mkDailyRow (fst k) (snd k)
    (pd_sum (map kwh (filter (fun r => pair_eqb Z.eqb String.eqb (day_key r) k) (rows df)))).

Lemma calculate_daily_totals_unfold {arith : Arithmetic} (df : DataFrame) :
  fst (calculate_daily_totals df) = map (daily_row df) (day_keys df).
Proof. reflexivity. Qed.

Lemma day_key_eqb_spec (x y : Z * string) :
  pair_eqb Z.eqb String.eqb x y = true <-> x = y.
Proof. apply pair_eqb_spec; [apply Z.eqb_eq|apply string_eqb_spec]. Qed.

Lemma day_keys_In (df : DataFrame) (k : Z * string) :
  In k (day_keys df) <-> exists r, In r (rows df) /\ day_key r = k.
Proof.
  unfold day_keys. rewrite (group_keys_In _ _ day_key_eqb_spec), in_map_iff.
  split; intros [r [H1 H2]]; eauto.
Qed.

(** The daily view has one row for a date and a building exactly when the
    building has rows on that date, with the sum of their [kwh]; a date
    without rows of the building gets no row (no placeholder, unlike the
    weekly view). *)
Theorem daily_totals_one_row_per_day {arith : Arithmetic} (df : DataFrame) (d : Z) (b : string) :
  filter (fun x => Z.eqb (d_date x) d && String.eqb (d_building x) b)
         (fst (calculate_daily_totals df)) =
  match filter (fun r => Z.eqb (date_of (timestamp r)) d && String.eqb (building r) b)
               (rows df) with
  | [] => []
  | r :: members => [mkDailyRow d b (pd_sum (map kwh (r :: members)))]
  end.
Proof.
  rewrite calculate_daily_totals_unfold, filter_map_comm.
  change (fun x : Z * string =>
            Z.eqb (d_date (daily_row df x)) d && String.eqb (d_building (daily_row df x)) b)
    with (fun x : Z * string => pair_eqb Z.eqb String.eqb x (d, b)).
  change (filter (fun r => Z.eqb (date_of (timestamp r)) d && String.eqb (building r) b) (rows df))
    with (filter (fun r => pair_eqb Z.eqb String.eqb (day_key r) (d, b)) (rows df)).
  destruct (filter (fun r => pair_eqb Z.eqb String.eqb (day_key r) (d, b)) (rows df))
    as [|r members] eqn:E.
  - rewrite filter_none; [reflexivity|].
    intros k Hk. destruct (pair_eqb Z.eqb String.eqb k (d, b)) eqn:Ek; [exfalso|reflexivity].
    apply day_key_eqb_spec in Ek. subst k.
    apply day_keys_In in Hk. destruct Hk as [r [Hr Hkey]].
    assert (Hin : In r (filter (fun r => pair_eqb Z.eqb String.eqb (day_key r) (d, b)) (rows df)))
      by (apply filter_In; split; [exact Hr|now apply day_key_eqb_spec]).
    rewrite E in Hin. destruct Hin.
  - rewrite (filter_singleton _ _ (d, b)).
    + simpl. unfold daily_row. simpl. now rewrite E.
    + apply group_keys_NoDup, day_key_eqb_spec.
    + apply day_keys_In. exists r.
      assert (Hin : In r (filter (fun r => pair_eqb Z.eqb String.eqb (day_key r) (d, b)) (rows df)))
        by (rewrite E; now left).
      apply filter_In in Hin. destruct Hin as [Hr Hk]. now apply day_key_eqb_spec in Hk.
    + intros k _ Hk. now apply day_key_eqb_spec.
    + now apply day_key_eqb_spec.
Qed.

(* ------------------------------------------------------------------ *)
(** ** Extremes and means of a column *)

Definition Qmax_step (a b : Q) : Q := if Qltb a b then b else a.
Definition Qmin_step (a b : Q) : Q := if Qltb b a then b else a.

Lemma fold_Qmax_spec (l : list Q) :
  forall a,
    a <= fold_left Qmax_step l a /\
    (forall y, In y l -> y <= fold_left Qmax_step l a) /\
    In (fold_left Qmax_step l a) (a :: l).
Proof.
  induction l as [|x l IH]; intro a; simpl.
  - split; [apply Qle_refl|]. split; [intros ? []|now left].
  - destruct (IH (Qmax_step a x)) as (H1 & H2 & H3).
    assert (Ha : a <= Qmax_step a x /\ x <= Qmax_step a x).
    { unfold Qmax_step. destruct (Qltb a x) eqn:E.
      - apply Qltb_lt in E. split; [now apply Qlt_le_weak|apply Qle_refl].
      - apply Qltb_ge in E. split; [apply Qle_refl|exact E]. }
    destruct Ha as [Ha Hx]. split; [eapply Qle_trans; eauto|]. split.
    + intros y [<-|Hy]; [eapply Qle_trans; eauto|auto].
    + destruct H3 as [H3|H3]; [|auto].
      rewrite <- H3. unfold Qmax_step. destruct (Qltb a x); auto.
Qed.

Lemma fold_Qmin_spec (l : list Q) :
  forall a,
    fold_left Qmin_step l a <= a /\
    (forall y, In y l -> fold_left Qmin_step l a <= y) /\
    In (fold_left Qmin_step l a) (a :: l).
Proof.
  induction l as [|x l IH]; intro a; simpl.
  - split; [apply Qle_refl|]. split; [intros ? []|now left].
  - destruct (IH (Qmin_step a x)) as (H1 & H2 & H3).
    assert (Ha : Qmin_step a x <= a /\ Qmin_step a x <= x).
    { unfold Qmin_step. destruct (Qltb x a) eqn:E.
      - apply Qltb_lt in E. split; [now apply Qlt_le_weak|apply Qle_refl].
      - apply Qltb_ge in E. split; [apply Qle_refl|exact E]. }
    destruct Ha as [Ha Hx]. split; [eapply Qle_trans; eauto|]. split.
    + intros y [<-|Hy]; [eapply Qle_trans; eauto|auto].
    + destruct H3 as [H3|H3]; [|auto].
      rewrite <- H3. unfold Qmin_step. destruct (Qltb x a); auto.
Qed.

Lemma pd_max_spec (l : list Q) (m : Q) :
  pd_max l = Some m -> In m l /\ forall y, In y l -> y <= m.
Proof.
  destruct l as [|x l]; simpl; [discriminate|]. intro H. injection H as <-.
  destruct (fold_Qmax_spec l x) as (H1 & H2 & H3). split; [exact H3|].
  intros y [<-|Hy]; auto.
Qed.

Lemma pd_min_spec (l : list Q) (m : Q) :
  pd_min l = Some m -> In m l /\ forall y, In y l -> m <= y.
Proof.
  destruct l as [|x l]; simpl; [discriminate|]. intro H. injection H as <-.
  destruct (fold_Qmin_spec l x) as (H1 & H2 & H3). split; [exact H3|].
  intros y [<-|Hy]; auto.
Qed.

(* ------------------------------------------------------------------ *)
(** ** The building-wise summary *)

Lemma string_leb_ne_ltb (a b : string) :
  String.leb a b = true -> a <> b -> String.ltb a b = true.
Proof.
  unfold String.leb, String.ltb. intros H Hne.
  destruct (String.compare a b) eqn:E; [|reflexivity|discriminate].
  apply String.compare_eq_iff in E. contradiction.
Qed.

(** The keys of a [groupby('building')]: strictly ascending. *)
Lemma building_keys_ascending (l : list string) :
  StronglySorted (fun a b => String.ltb a b = true)
                 (group_keys String.eqb String.leb l).
Proof.
  apply (StronglySorted_strengthen (fun a b => String.leb a b = true)).
  - intros x y _ _. apply string_leb_ne_ltb.
  - apply group_keys_NoDup, string_eqb_spec.
  - unfold group_keys. apply sort_by_sorted.
    + apply string_leb_trans.
    + auto.
    + intros x y H. destruct (String.leb_total x y); congruence.
Qed.

(** The summary lists the buildings of the dataset, each once, in
    strictly ascending order of their names. *)
Theorem summary_rows_in_building_order {arith : Arithmetic} (df : DataFrame) :
  StronglySorted (fun a b => String.ltb a b = true)
                 (map s_building (building_wise_summary df)) /\
  forall b, In b (map s_building (building_wise_summary df)) <->
            In b (map building (rows df)).
Proof.
  unfold building_wise_summary. rewrite map_map. cbn [s_building]. rewrite map_id.
  split; [apply building_keys_ascending|].
  intro b. apply (group_keys_In String.eqb String.leb string_eqb_spec).
Qed.

(** In every row of the summary the statistics are defined and the count
    is the number of rows of the building, which is positive; the minimum
    and the maximum are the [kwh] of rows of the building, and the [kwh]
    of every row of the building lies between them. *)
Theorem summary_extremes_bound_rows {arith : Arithmetic} (df : DataFrame) (s : SummaryRow) :
  In s (building_wise_summary df) ->
  exists mn mx,
    min_kwh s = Some mn /\ max_kwh s = Some mx /\ mean_kwh s <> None /\
    (0 < readings_count s)%nat /\
    readings_count s = List.length (filter (in_building (s_building s)) (rows df)) /\
    (exists r, In r (rows df) /\ building r = s_building s /\ kwh r = mn) /\
    (exists r, In r (rows df) /\ building r = s_building s /\ kwh r = mx) /\
    (forall r, In r (rows df) -> building r = s_building s -> mn <= kwh r <= mx).
Proof.
  unfold building_wise_summary. intro Hs.
  apply in_map_iff in Hs. destruct Hs as [b [<- Hb]]. cbn [s_building min_kwh max_kwh mean_kwh readings_count].
  apply (proj1 (group_keys_In String.eqb String.leb string_eqb_spec _ _)) in Hb.
  apply in_map_iff in Hb. destruct Hb as [r0 [Hb Hr0]].
  assert (Hmem : forall r, In r (filter (in_building b) (rows df)) <->
                           In r (rows df) /\ building r = b).
  { intro r. rewrite filter_In. unfold in_building. now rewrite String.eqb_eq. }
  assert (Hin : In (kwh r0) (map kwh (filter (in_building b) (rows df)))).
  { apply in_map, Hmem. auto. }
  destruct (pd_min (map kwh (filter (in_building b) (rows df)))) as [mn|] eqn:Emin;
    [|destruct (map kwh (filter (in_building b) (rows df))); [destruct Hin|discriminate]].
  destruct (pd_max (map kwh (filter (in_building b) (rows df)))) as [mx|] eqn:Emax;
    [|destruct (map kwh (filter (in_building b) (rows df))); [destruct Hin|discriminate]].
  apply pd_min_spec in Emin. destruct Emin as [Hmn Hlo].
  apply pd_max_spec in Emax. destruct Emax as [Hmx Hhi].
  exists mn, mx. split; [reflexivity|]. split; [reflexivity|]. split; [|split; [|split; [|split; [|split]]]].
  - destruct (map kwh (filter (in_building b) (rows df))); [destruct Hin|discriminate].
  - rewrite length_map in *.
    destruct (filter (in_building b) (rows df)); [destruct Hin|simpl; lia].
  - apply length_map.
  - apply in_map_iff in Hmn. destruct Hmn as [r [E Hr]]. apply Hmem in Hr.
    exists r. tauto.
  - apply in_map_iff in Hmx. destruct Hmx as [r [E Hr]]. apply Hmem in Hr.
    exists r. tauto.
  - intros r Hr Hbr.
    assert (Hk : In (kwh r) (map kwh (filter (in_building b) (rows df))))
      by (apply in_map, Hmem; auto).
    split; auto.
Qed.

Lemma summary_extremes_bound_rows_witness :
  exists mn mx,
    let s := mkSummaryRow "A" 160 (Some 40) (Some 60) (Some 10) 4 in
    min_kwh s = Some mn /\ max_kwh s = Some mx /\ mean_kwh s <> None /\
    (0 < readings_count s)%nat /\
    readings_count s =
      List.length (filter (in_building (s_building s)) (rows tied_hours_dataset)) /\
    (exists r, In r (rows tied_hours_dataset) /\ building r = s_building s /\ kwh r = mn) /\
    (exists r, In r (rows tied_hours_dataset) /\ building r = s_building s /\ kwh r = mx) /\
    (forall r, In r (rows tied_hours_dataset) -> building r = s_building s ->
               mn <= kwh r <= mx).
Proof.
  apply (summary_extremes_bound_rows tied_hours_dataset
           (mkSummaryRow "A" 160 (Some 40) (Some 60) (Some 10) 4)).
  vm_compute. left. reflexivity.
Defined.

Lemma max_loop_kwh {A : Type} (key : A -> Q) (l : list A) :
  forall best, key (max_loop key best l) = fold_left Qmax_step (map key l) (key best).
Proof.
  induction l as [|x l IH]; intro best; simpl; [reflexivity|].
  unfold Qmax_step at 2. destruct (Qltb (key best) (key x)); apply IH.
Qed.

(* ------------------------------------------------------------------ *)
(** ** The rows of the peak-hours view *)

Lemma peak_table_buildings {arith : Arithmetic} (df : DataFrame) (b : string) :
  In b (map p_building (peak_table df)) <-> In b (map building (rows df)).
Proof.
  unfold peak_table. rewrite map_map. cbn [p_building peak_row]. split.
  - intro H. apply in_map_iff in H. destruct H as [[b' h] [E Hk]]. simpl in E. subst b'.
    apply hour_keys_In in Hk. destruct Hk as [r [Hr [Hb _]]].
    rewrite <- Hb. now apply in_map.
  - intro H. apply in_map_iff in H. destruct H as [r [E Hr]].
    apply in_map_iff. exists (b, hour_of (timestamp r)). split; [reflexivity|].
    apply hour_keys_In. exists r. auto.
Qed.

Lemma choice_one_row {arith : Arithmetic} (df : DataFrame) (b : string) :
  In b (map building (rows df)) ->
  exists p, choice (peak_table df) b = [p] /\ p_building p = b.
Proof.
  intro Hb. pose proof (choice_spec (peak_table df) b) as Hc.
  pose proof (choice_building (peak_table df) b) as Hcb.
  destruct (idxmax (map label_value (group_of (peak_table df) b))).
  - destruct Hc as (before & p & after & u & _ & Hp & _).
    exists p. split; [exact Hp|]. apply Hcb. rewrite Hp. now left.
  - exfalso. destruct Hc as [_ Hnone].
    apply in_map_iff in Hb. destruct Hb as [r [E Hr]].
    assert (Hh : has_hour df b (hour_of (timestamp r))) by (exists r; auto).
    destruct (hourly_mean_Some df b _ Hh) as [m Hm].
    specialize (Hnone (peak_row df (b, hour_of (timestamp r)))).
    cbn in Hnone. rewrite Hm in Hnone.
    assert (Hin : In (peak_row df (b, hour_of (timestamp r))) (peak_table df)).
    { apply in_map. now apply hour_keys_In. }
    specialize (Hnone Hin eq_refl). discriminate.
Qed.

(** The peak-hours view has one row for each building of the dataset, in
    strictly ascending order of the building names. *)
Theorem peak_hours_rows_in_building_order {arith : Arithmetic} (df : DataFrame) :
  StronglySorted (fun a b => String.ltb a b = true)
                 (map p_building (fst (find_peak_hours df))) /\
  forall b, In b (map p_building (fst (find_peak_hours df))) <->
            In b (map building (rows df)).
Proof.
  rewrite find_peak_hours_unfold.
  assert (Hrows :
            forall ks,
              (forall b, In b ks -> In b (map building (rows df))) ->
              map p_building (flat_map (choice (peak_table df)) ks) = ks).
  { induction ks as [|k ks IH]; intro H; simpl; [reflexivity|].
    destruct (choice_one_row df k) as [p [Hp Hb]]; [apply H; now left|].
    rewrite Hp. simpl. rewrite Hb, IH; [reflexivity|].
    intros b Hin. apply H. now right. }
  rewrite Hrows.
  - split; [apply building_keys_ascending|].
    intro b. rewrite (group_keys_In String.eqb String.leb string_eqb_spec).
    apply peak_table_buildings.
  - intros b Hb. apply (proj1 (group_keys_In String.eqb String.leb string_eqb_spec _ _)) in Hb.
    now apply peak_table_buildings.
Qed.

(* ------------------------------------------------------------------ *)
(** ** The manager as a dictionary *)

Lemma get_building_None (m : BuildingManager) (n : string) :
  get_building m n = None <-> ~ In n (map fst m).
Proof.
  induction m as [|[k v] m IH]; simpl; [tauto|].
  destruct (String.eqb_spec k n) as [->|Hne].
  - split; [discriminate|]. intro H. exfalso. apply H. now left.
  - rewrite IH. tauto.
Qed.

Lemma dict_set_keys (m : BuildingManager) (k : string) (v : Building) :
  map fst (dict_set m k v) =
  if existsb (String.eqb k) (map fst m) then map fst m else (map fst m ++ [k])%list.
Proof.
  induction m as [|[k0 v0] m IH]; simpl; [reflexivity|].
  rewrite (String.eqb_sym k k0).
  destruct (String.eqb_spec k0 k) as [->|Hne]; simpl; [reflexivity|].
  rewrite IH. destruct (existsb (String.eqb k) (map fst m)); reflexivity.
Qed.

(** [add_building] then [get_building]: the building is found under its
    own name, whether or not the name was taken (the last one registered
    wins); every other name answers as before; names stay distinct, and
    the number of buildings grows only for a new name. *)
Theorem add_building_last_write_wins (m : BuildingManager) (b : Building) :
  get_building (add_building m b) (name b) = Some b /\
  (forall n, n <> name b -> get_building (add_building m b) n = get_building m n) /\
  (NoDup (map fst m) -> NoDup (map fst (add_building m b))) /\
  List.length (get_all_buildings (add_building m b)) =
    match get_building m (name b) with
    | Some _ => List.length (get_all_buildings m)
    | None => S (List.length (get_all_buildings m))
    end.
Proof.
  unfold add_building, get_all_buildings. split; [|split; [|split]].
  - now rewrite get_building_dict_set, String.eqb_refl.
  - intros n Hn. rewrite get_building_dict_set.
    destruct (String.eqb_spec (name b) n); [congruence|reflexivity].
  - intro Hnd. rewrite dict_set_keys.
    destruct (existsb (String.eqb (name b)) (map fst m)) eqn:E; [exact Hnd|].
    apply NoDup_app; [exact Hnd|repeat constructor; intros []|].
    intros x Hx [Ex|[]]. subst x.
    assert (E' : existsb (String.eqb (name b)) (map fst m) = true)
      by now apply (existsb_eqb_In _ string_eqb_spec).
    congruence.
  - rewrite !length_map. rewrite <- (length_map fst (dict_set _ _ _)), dict_set_keys.
    destruct (get_building m (name b)) as [v|] eqn:E.
    + assert (Hin : In (name b) (map fst m)).
      { destruct (in_dec string_dec (name b) (map fst m)) as [H|H]; [exact H|].
        apply get_building_None in H. congruence. }
      apply (existsb_eqb_In _ string_eqb_spec) in Hin. rewrite Hin. apply length_map.
    + apply get_building_None in E.
      destruct (existsb (String.eqb (name b)) (map fst m)) eqn:E'.
      * apply (existsb_eqb_In _ string_eqb_spec) in E'. contradiction.
      * rewrite length_app, length_map. simpl. lia.
Qed.

(* ------------------------------------------------------------------ *)
(** ** The manager that [main] builds *)

Lemma dict_set_fresh (m : BuildingManager) (k : string) (v : Building) :
  ~ In k (map fst m) -> dict_set m k v = (m ++ [(k, v)])%list.
Proof.
  induction m as [|[k0 v0] m IH]; simpl; intro H; [reflexivity|].
  destruct (String.eqb_spec k0 k) as [->|Hne]; [exfalso; apply H; now left|].
  rewrite IH; [reflexivity|]. intro Hin. apply H. now right.
Qed.

Lemma build_manager_fold (df : DataFrame) (names : list string) :
  NoDup names ->
  forall m,
    (forall n, In n names -> ~ In n (map fst m)) ->
    fold_left
      (fun manager building_name =>
         add_building manager
           (fold_left (fun b row => add_reading b (timestamp row) (kwh row))
                      (filter (in_building building_name) (rows df))
                      (Building_init building_name)))
      names m =
    (m ++ map (fun n => (n, building_of df n)) names)%list.
Proof.
  induction 1 as [|n names Hn Hnd IH]; intros m Hfresh; simpl.
  - now rewrite app_nil_r.
  - rewrite add_readings_spec. unfold add_building. simpl.
    fold (reading_of). fold (building_of df n).
    rewrite dict_set_fresh by (apply Hfresh; now left).
    rewrite IH, <- app_assoc; [reflexivity|].
    intros n' Hn' Hin. rewrite map_app in Hin. apply in_app_or in Hin.
    destruct Hin as [Hin|[<-|[]]].
    + apply (Hfresh n'); [now right|exact Hin].
    + contradiction.
Qed.

Lemma build_manager_spec (df : DataFrame) :
  build_manager df =
  map (fun n => (n, building_of df n)) (unique String.eqb (map building (rows df))).
Proof.
  unfold build_manager. rewrite build_manager_fold; [reflexivity| |].
  - apply unique_NoDup, string_eqb_spec.
  - intros n _ [].
Qed.

(** [main] registers one Building per distinct name of the dataset, in
    the order in which the names first appear; each holds the rows of its
    name as readings, in dataset order; every row of the dataset becomes
    exactly one reading. *)
Theorem build_manager_contents (df : DataFrame) :
  build_manager df =
    map (fun n => (n, mkBuilding n (map reading_of (filter (in_building n) (rows df)))))
        (unique String.eqb (map building (rows df))) /\
  list_sum (map (fun b => List.length (meter_readings b))
                (get_all_buildings (build_manager df))) =
    List.length (rows df).
Proof.
  split; [apply build_manager_spec|].
  rewrite build_manager_spec. unfold get_all_buildings. rewrite !map_map. cbn [snd building_of meter_readings].
  rewrite (map_ext _ (fun n => List.length (filter (fun r => String.eqb (building r) n) (rows df))))
    by (intro; now rewrite length_map).
  apply (length_partition building String.eqb string_eqb_spec).
  - apply unique_NoDup, string_eqb_spec.
  - intros r Hr. apply (unique_In _ string_eqb_spec). now apply in_map.
Qed.

Lemma dataset_rows_sorted {pandas : Pandas} (csv_files : list CsvFile) :
  StronglySorted timestamp_le (dataset_rows (ingest_data csv_files)).
Proof.
  unfold dataset_rows. rewrite ingest_data_dataset.
  destruct (filter loads csv_files); simpl.
  - constructor.
  - apply sort_values_sorted.
Qed.

(** Ingestion followed by the construction of the object model: in every
    Building the readings are in ascending order of their timestamps. *)
Theorem readings_are_chronological {pandas : Pandas} (csv_files : list CsvFile) :
  Forall (fun b => StronglySorted (fun x y => (mr_timestamp x <= mr_timestamp y)%Z)
                                  (meter_readings b))
         (get_all_buildings
            (build_manager (mkDataFrame (dataset_rows (ingest_data csv_files)) []))).
Proof.
  rewrite build_manager_spec.
  unfold get_all_buildings. rewrite map_map. cbn [snd rows].
  apply Forall_forall. intros b Hb. apply in_map_iff in Hb. destruct Hb as [n [<- _]].
  cbn [building_of meter_readings]. apply StronglySorted_map. cbn [reading_of mr_timestamp].
  apply StronglySorted_filter. apply dataset_rows_sorted.
Qed.

(* ------------------------------------------------------------------ *)
(** ** Adding a reading *)



(* ------------------------------------------------------------------ *)
(** ** The reports of the object model *)

(** [min(iterable, key=...)]: the running minimum is replaced only by an
    item whose key is strictly smaller. *)
Fixpoint min_loop {A : Type} (key : A -> Q) (best : A) (l : list A) : A :=
  match l with
  | [] => best
  | x :: l' => if Qltb (key x) (key best) then min_loop key x l' else min_loop key best l'
  end.

Definition py_min {A : Type} (key : A -> Q) (l : list A) : py A :=
  match l with
  | [] => Raise ValueError
  | x :: l' => Ret (min_loop key x l')
  end.

(** What [generate_report] puts in its text: the fixed sentence for a
    building without readings, or the figures that the report formats. *)
Inductive Report : Type :=
| NoDataAvailable (building_name : string)
| BuildingReport (building_name : string) (total_readings : nat)
                 (total avg : Q) (peak min_reading : MeterReading).

(** The outcome of a call: a report, an exception of the called methods,
    or the [AttributeError] of reading [peak.kwh] on [None]. *)
Inductive report_result : Type :=
| Returns (r : Report)
| Raises (e : exn)
| RaisesAttributeError.

Definition generate_report {arith : Arithmetic} (b : Building) : report_result :=
  match meter_readings b with
  | [] => Returns (NoDataAvailable (name b))
  | _ :: _ =>
      let total := calculate_total_consumption b in
      match calculate_average_consumption b with
      | Raise e => Raises e
      | Ret avg =>
          match get_peak_consumption b with
          | Raise e => Raises e
          | Ret peak =>
              match py_min mr_kwh (meter_readings b) with
              | Raise e => Raises e
              | Ret min_reading =>
                  match peak with
                  | None => RaisesAttributeError
                  | Some peak =>
                      Returns (BuildingReport (name b) (List.length (meter_readings b))
                                              total avg peak min_reading)
                  end
              end
          end
      end
  end.

(** [x / y] on numbers: division by zero raises. *)
Definition py_truediv {arith : Arithmetic} (x y : Q) : py Q :=
  if Qeq_bool y 0 then Raise ZeroDivisionError else Ret (py_quot x y).

(** The figures of [generate_campus_report]: the number of buildings,
    the campus total, and for each building, in the order of the
    dictionary, its name, its consumption and its share in percent. *)
Record CampusLine : Type := mkCampusLine {
  cl_name : string;
  cl_consumption : Q;
  cl_percentage : Q
}.

Record CampusReport : Type := mkCampusReport {
  total_buildings : nat;
  total_campus : Q;
  breakdown : list CampusLine
}.

(** The loop over [self.buildings.values()] that adds the lines. *)
Fixpoint campus_lines {arith : Arithmetic} (total_campus : Q) (buildings : list Building) (report : list CampusLine)
  : py (list CampusLine) :=
  match buildings with
  | [] => Ret report
  | building :: buildings' =>
      let consumption := calculate_total_consumption building in
      let percentage :=
        if Qltb 0 total_campus
        then match py_truediv consumption total_campus with
             | Ret q => Ret (py_mul q 100)
             | Raise e => Raise e
             end
        else Ret 0 in
      match percentage with
      | Raise e => Raise e
      | Ret percentage =>
          campus_lines total_campus buildings'
                       (report ++ [mkCampusLine (name building) consumption percentage])
      end
  end.

Definition generate_campus_report {arith : Arithmetic} (m : BuildingManager) : py CampusReport :=
  let total_campus := py_sum (map calculate_total_consumption (get_all_buildings m)) in
  match campus_lines total_campus (get_all_buildings m) [] with
  | Raise e => Raise e
  | Ret lines => Ret (mkCampusReport (List.length m) total_campus lines)
  end.

Lemma min_loop_spec {A : Type} (key : A -> Q) (l : list A) :
  forall best,
    In (min_loop key best l) (best :: l) /\
    forall x, In x (best :: l) -> key (min_loop key best l) <= key x.
Proof.
  induction l as [|y l IH]; intro best; simpl.
  - split; [now left|]. intros x [<-|[]]. apply Qle_refl.
  - destruct (Qltb (key y) (key best)) eqn:E.
    + destruct (IH y) as [Hin Hle]. split; [now right|].
      intros x [<-|Hx]; [|now apply Hle].
      apply Qltb_lt in E. eapply Qle_trans; [apply Hle; now left|now apply Qlt_le_weak].
    + destruct (IH best) as [Hin Hle]. split.
      * destruct Hin as [Hin|Hin]; [now left|right; now right].
      * intros x [<-|[<-|Hx]].
        -- apply Hle. now left.
        -- apply Qltb_ge in E. eapply Qle_trans; [apply Hle; now left|exact E].
        -- apply Hle. now right.
Qed.

Lemma max_loop_spec {A : Type} (key : A -> Q) (l : list A) (best : A) :
  In (max_loop key best l) (best :: l) /\
  forall x, In x (best :: l) -> key x <= key (max_loop key best l).
Proof.
  destruct (max_loop_first key l best) as (l1 & l2 & Heq & Hlt & Hle).
  rewrite Heq. split; [apply in_elt|].
  intros x Hx. apply in_app_or in Hx. destruct Hx as [Hx|[<-|Hx]].
  - now apply Qlt_le_weak, Hlt.
  - apply Qle_refl.
  - now apply Hle.
Qed.

Lemma min_loop_kwh {A : Type} (key : A -> Q) (l : list A) :
  forall best, key (min_loop key best l) = fold_left Qmin_step (map key l) (key best).
Proof.
  induction l as [|x l IH]; intro best; simpl; [reflexivity|].
  unfold Qmin_step at 2. destruct (Qltb (key x) (key best)); apply IH.
Qed.

(** The summary row of a building and the Building object that [main]
    fills from the same dataset agree on what is found by comparison: the
    count is the number of readings, the maximum is the [kwh] of the peak
    reading, and the minimum is the [kwh] of the reading that
    [generate_report] shows as the minimum. *)
Theorem summary_row_matches_building {arith : Arithmetic} (df : DataFrame) (b : string) :
  In b (map building (rows df)) ->
  exists s m peak min_reading,
    filter (fun s => String.eqb (s_building s) b) (building_wise_summary df) = [s] /\
    get_building (build_manager df) b = Some m /\
    readings_count s = List.length (meter_readings m) /\
    get_peak_consumption m = Ret (Some peak) /\ max_kwh s = Some (mr_kwh peak) /\
    py_min mr_kwh (meter_readings m) = Ret min_reading /\
    min_kwh s = Some (mr_kwh min_reading).
Proof.
  intro Hb.
  assert (Hne : exists r0 rest, filter (in_building b) (rows df) = r0 :: rest).
  { apply in_map_iff in Hb. destruct Hb as [r [E Hr]].
    assert (Hin : In r (filter (in_building b) (rows df))).
    { apply filter_In. split; [exact Hr|]. unfold in_building. rewrite E.
      apply String.eqb_refl. }
    destruct (filter (in_building b) (rows df)) as [|r0 rest]; [destruct Hin|eauto]. }
  destruct Hne as (r0 & rest & Eg).
  eexists _, (building_of df b), _, _.
  split; [|split; [|split; [|split; [|split; [|split]]]]].
  - unfold building_wise_summary.
    apply (filter_one_per_key _ s_building); [reflexivity| |].
    + apply group_keys_NoDup, string_eqb_spec.
    + now apply (group_keys_In _ _ string_eqb_spec).
  - now apply build_manager_get.
  - cbn. now rewrite !length_map.
  - unfold get_peak_consumption, building_of. cbn [meter_readings]. rewrite Eg.
    cbn [map py_max]. reflexivity.
  - cbn [max_kwh]. rewrite Eg. cbn [map pd_max]. f_equal.
    rewrite max_loop_kwh, map_map. reflexivity.
  - unfold building_of. cbn [meter_readings]. rewrite Eg. cbn [map py_min]. reflexivity.
  - cbn [min_kwh]. rewrite Eg. cbn [map pd_min]. f_equal.
    rewrite min_loop_kwh, map_map. reflexivity.
Qed.

Lemma summary_row_matches_building_witness :
  exists s m peak min_reading,
    filter (fun s => String.eqb (s_building s) "A") (building_wise_summary tied_hours_dataset) = [s] /\
    get_building (build_manager tied_hours_dataset) "A" = Some m /\
    readings_count s = List.length (meter_readings m) /\
    get_peak_consumption m = Ret (Some peak) /\ max_kwh s = Some (mr_kwh peak) /\
    py_min mr_kwh (meter_readings m) = Ret min_reading /\
    min_kwh s = Some (mr_kwh min_reading).
Proof.
  apply (summary_row_matches_building tied_hours_dataset "A").
  simpl. auto.
Defined.

(** [generate_report] raises nothing.  Without readings it returns the
    no-data sentence.  Otherwise it reports the number of readings, which
    is positive, the total and the average as the two methods return them,
    and as peak and minimum two readings of the building between which
    the [kwh] of every reading lies. *)
Theorem generate_report_extremes {arith : Arithmetic} (b : Building) :
  match generate_report b with
  | Returns (NoDataAvailable n) => n = name b /\ meter_readings b = []
  | Returns (BuildingReport n count total avg peak min_reading) =>
      n = name b /\
      count = List.length (meter_readings b) /\ (0 < count)%nat /\
      total = calculate_total_consumption b /\
      calculate_average_consumption b = Ret avg /\
      In peak (meter_readings b) /\ In min_reading (meter_readings b) /\
      (forall r, In r (meter_readings b) ->
                 mr_kwh min_reading <= mr_kwh r /\ mr_kwh r <= mr_kwh peak)
  | Raises _ => False
  | RaisesAttributeError => False
  end.
Proof.
  unfold generate_report, calculate_average_consumption, get_peak_consumption.
  destruct (meter_readings b) as [|r l] eqn:E; [auto|].
  cbn [py_div List.length py_max py_min].
  destruct (max_loop_spec mr_kwh l r) as [Hmax_in Hmax].
  destruct (min_loop_spec mr_kwh l r) as [Hmin_in Hmin].
  repeat split; auto.
  simpl. lia.
Qed.

Lemma campus_lines_spec {arith : Arithmetic} (T : Q) (buildings : list Building) :
  forall report,
    exists lines,
      campus_lines T buildings report = Ret (report ++ lines)%list /\
      map cl_name lines = map name buildings /\
      map cl_consumption lines = map calculate_total_consumption buildings /\
      (forall line, In line lines ->
         if Qltb 0 T then cl_percentage line = py_mul (py_quot (cl_consumption line) T) 100
         else cl_percentage line = 0).
Proof.
  induction buildings as [|b bs IH]; intro report; cbn [campus_lines].
  - exists []. rewrite app_nil_r. repeat split. intros ? [].
  - unfold py_truediv. destruct (Qltb 0 T) eqn:E.
    + assert (Hz : Qeq_bool T 0 = false).
      { destruct (Qeq_bool T 0) eqn:Ez; [|reflexivity].
        apply Qeq_bool_iff in Ez. apply Qltb_lt in E. rewrite Ez in E.
        exfalso. exact (Qlt_irrefl _ E). }
      rewrite Hz.
      destruct (IH (report ++ [mkCampusLine (name b) (calculate_total_consumption b)
                                            (py_mul (py_quot (calculate_total_consumption b) T)
                                                    100)])%list)
        as (lines & Heq & Hn & Hc & Hp).
      eexists (_ :: lines). rewrite Heq, <- app_assoc. split; [reflexivity|].
      cbn [map cl_name cl_consumption]. rewrite Hn, Hc. repeat split.
      intros line [<-|Hl]; [reflexivity|]. now apply Hp.
    + destruct (IH (report ++ [mkCampusLine (name b) (calculate_total_consumption b) 0])%list)
        as (lines & Heq & Hn & Hc & Hp).
      eexists (_ :: lines). rewrite Heq, <- app_assoc. split; [reflexivity|].
      cbn [map cl_name cl_consumption]. rewrite Hn, Hc. repeat split.
      intros line [<-|Hl]; [reflexivity|]. now apply Hp.
Qed.

(** [generate_campus_report] raises nothing, whatever the campus total:
    the division is made only by a positive total.  The report has one
    line per building, in the order of the dictionary, with the name and
    the total consumption of the building; when the campus total is not
    positive, every share is 0. *)
Theorem generate_campus_report_lines {arith : Arithmetic} (m : BuildingManager) :
  exists report,
    generate_campus_report m = Ret report /\
    total_buildings report = List.length (breakdown report) /\
    map cl_name (breakdown report) = map name (get_all_buildings m) /\
    map cl_consumption (breakdown report) =
      map calculate_total_consumption (get_all_buildings m) /\
    (total_campus report <= 0 ->
     forall line, In line (breakdown report) -> cl_percentage line = 0).
Proof.
  unfold generate_campus_report.
  set (T := py_sum (map calculate_total_consumption (get_all_buildings m))).
  destruct (campus_lines_spec T (get_all_buildings m) []) as (lines & Heq & Hn & Hc & Hp).
  rewrite Heq. eexists. split; [reflexivity|]. cbn [total_buildings breakdown total_campus app].
  split; [|split; [exact Hn|split; [exact Hc|]]].
  - rewrite <- (length_map cl_name lines), Hn. unfold get_all_buildings.
    now rewrite !length_map.
  - intros HT line Hl. specialize (Hp line Hl).
    apply Qltb_ge in HT. now rewrite HT in Hp.
Qed.

(* ------------------------------------------------------------------ *)
(** ** The columns that the views assign *)

(** [df[name]] on the derived columns; [None] stands for [KeyError]. *)
Fixpoint get_column (name : string) (cols : list (string * list Z)) : option (list Z) :=
  match cols with
  | [] => None
  | (n, v) :: cols' => if String.eqb n name then Some v else get_column name cols'
  end.

Lemma get_column_assign (n name : string) (values : list Z) (cols : list (string * list Z)) :
  get_column n (assign name values cols) =
  if String.eqb name n then Some values else get_column n cols.
Proof.
  induction cols as [|[k v] cols IH]; simpl.
  - reflexivity.
  - destruct (String.eqb_spec k name) as [->|Hne]; simpl.
    + destruct (String.eqb name n); reflexivity.
    + rewrite IH. destruct (String.eqb_spec k n) as [->|Hne'].
      * destruct (String.eqb_spec name n); [congruence|reflexivity].
      * reflexivity.
Qed.

Lemma assign_again (name : string) (values : list Z) (cols : list (string * list Z)) :
  assign name values (assign name values cols) = assign name values cols.
Proof.
  induction cols as [|[k v] cols IH]; simpl.
  - now rewrite String.eqb_refl.
  - destruct (String.eqb_spec k name) as [->|Hne]; simpl.
    + now rewrite String.eqb_refl.
    + destruct (String.eqb_spec k name); [contradiction|]. now rewrite IH.
Qed.

(** A view that assigns a column can be computed again: the second call
    returns the same view and leaves the frame as the first call left it
    (the column is overwritten, not added twice).  After the daily totals
    and the peak hours the frame has both columns, computed from the
    timestamps, whatever columns it had before. *)
Theorem views_can_be_repeated {arith : Arithmetic} (df : DataFrame) :
  calculate_daily_totals (snd (calculate_daily_totals df)) = calculate_daily_totals df /\
  find_peak_hours (snd (find_peak_hours df)) = find_peak_hours df /\
  get_column "date" (derived (snd (find_peak_hours (snd (calculate_daily_totals df))))) =
    Some (map (fun r => date_of (timestamp r)) (rows df)) /\
  get_column "hour" (derived (snd (find_peak_hours (snd (calculate_daily_totals df))))) =
    Some (map (fun r => hour_of (timestamp r)) (rows df)).
Proof.
  split; [|split; [|split]].
  - unfold calculate_daily_totals, set_column. cbn [snd rows derived].
    now rewrite assign_again.
  - unfold find_peak_hours, set_column. cbn [snd rows derived].
    now rewrite assign_again.
  - unfold find_peak_hours, calculate_daily_totals, set_column. cbn [snd rows derived].
    rewrite !get_column_assign. reflexivity.
  - unfold find_peak_hours, calculate_daily_totals, set_column. cbn [snd rows derived].
    rewrite get_column_assign. reflexivity.
Qed.

(* ------------------------------------------------------------------ *)
(** ** The highest consuming building of the executive summary *)

(** [building_summary.loc[building_summary['total_kwh'].idxmax()]] in
    [generate_executive_summary]: the summary has the default integer
    index, so this is its first row whose total no other row exceeds;
    [idxmax] raises [ValueError] on a summary without rows. *)
Definition highest_building (building_summary : list SummaryRow) : py SummaryRow :=
  py_max total_kwh building_summary.

Lemma string_ltb_leb (a b : string) : String.ltb a b = true -> String.leb a b = true.
Proof.
  unfold String.ltb, String.leb. destruct (String.compare a b); congruence.
Qed.

Lemma string_leb_refl (a : string) : String.leb a a = true.
Proof. destruct (String.leb_total a a); assumption. Qed.

Lemma summary_rows_ascending {arith : Arithmetic} (df : DataFrame) :
  StronglySorted (fun s t => String.ltb (s_building s) (s_building t) = true)
                 (building_wise_summary df).
Proof.
  unfold building_wise_summary. apply StronglySorted_map. cbn [s_building].
  apply building_keys_ascending.
Qed.

(** The highest consuming building: on a dataset without rows the lookup
    raises [ValueError]; otherwise it is a row of the summary whose total
    no other row exceeds, and among rows with the same total the one whose
    building name comes first. *)
Theorem highest_building_of_summary {arith : Arithmetic} (df : DataFrame) :
  match highest_building (building_wise_summary df) with
  | Raise e => e = ValueError /\ rows df = []
  | Ret s =>
      In s (building_wise_summary df) /\
      forall s', In s' (building_wise_summary df) ->
                 total_kwh s' <= total_kwh s /\
                 (total_kwh s' == total_kwh s ->
                  String.leb (s_building s) (s_building s') = true)
  end.
Proof.
  unfold highest_building, py_max.
  pose proof (summary_rows_ascending df) as Hsorted.
  destruct (building_wise_summary df) as [|s0 l] eqn:E.
  - split; [reflexivity|].
    destruct (rows df) as [|r rs] eqn:Er; [reflexivity|exfalso].
    assert (Hin : In (building r) (map s_building (building_wise_summary df))).
    { unfold building_wise_summary. rewrite map_map. cbn [s_building]. rewrite map_id.
      apply (group_keys_In String.eqb String.leb string_eqb_spec). rewrite Er. now left. }
    rewrite E in Hin. destruct Hin.
  - destruct (max_loop_first total_kwh l s0) as (l1 & l2 & Heq & Hlt & Hle).
    rewrite Heq in Hsorted |- *. split; [apply in_elt|].
    intros s' Hs'. apply in_app_or in Hs'. destruct Hs' as [Hs'|[<-|Hs']].
    + pose proof (Hlt _ Hs') as Hs. split; [now apply Qlt_le_weak|].
      intro Heq'. rewrite Heq' in Hs. exfalso. exact (Qlt_irrefl _ Hs).
    + split; [apply Qle_refl|]. intros _. apply string_leb_refl.
    + split; [now apply Hle|]. intros _.
      apply StronglySorted_after in Hsorted. rewrite Forall_forall in Hsorted.
      apply string_ltb_leb. now apply Hsorted.
Qed.

(** On the empty dataset that [ingest_data] returns for a lone source
    whose rows are all dropped, the lookup of the highest consuming
    building raises. *)
Example highest_building_of_empty_dataset :
  highest_building
    (building_wise_summary
       (mkDataFrame (dataset_rows (@ingest_data pandas_stable [all_rows_invalid_source])) [])) =
  Raise ValueError.
Proof. reflexivity. Qed.
